(** * Doctor listing page: the view-model of [App.jsx]

    The repository holds one React component in two revisions:
    - [src/App.jsx], the richer one (search also looks at the specialty,
      a "clear all" button);
    - an earlier revision of the same file (search on the name only, no
      "clear all").
    Both are embedded here; the revision is the [Revision] parameter of the
    few definitions on which they differ.

    Conventions of the embedding.
    - A JavaScript string is a [string]: the sequence of the bytes of its
      UTF-8 encoding.  White space is that of the language, each character
      by its bytes.  Lower-casing is that of the ASCII letters; the bytes of
      other characters are left alone.
    - The numbers the component computes come out of [parseInt]: they are
      doubles with an integer value, or an infinity.  A finite one is its
      value in [Z]; the two infinities are [Infinity] and [- Infinity], an
      integer that no finite double reaches.
    - A record of the view-model has the field types of the data model
      (name and specialty are strings, the two consultation flags are
      booleans); a field of a payload item that may be absent is an
      [option].
    - A JavaScript exception is the [Throw] case of [result]. *)

From Stdlib Require Import ZArith List String Ascii Bool Lia.
From Stdlib Require Import Sorted Permutation RelationClasses.
From Stdlib Require Import DecimalString DecimalNat.
Import ListNotations.

Local Open Scope string_scope.
Local Open Scope Z_scope.

(** ** The parts of the JavaScript library the component calls *)

Module JS.

(** Exceptions the component can meet. *)
Inductive exn : Type :=
| TypeError      (* property read on [undefined], call of a non-function *)
| SyntaxError    (* [response.json()] on a body that is not JSON *)
| NetworkError.  (* [fetch] rejected *)

Inductive result (A : Type) : Type :=
| Ok (a : A)
| Throw (e : exn).
Arguments Ok {A} a.
Arguments Throw {A} e.

Definition bind {A B} (r : result A) (k : A -> result B) : result B :=
  match r with
  | Ok a => k a
  | Throw e => Throw e
  end.

(** [array.map(f)] when [f] may throw: elements are visited in order and the
    first exception ends the loop. *)
Fixpoint mapM {A B} (f : A -> result B) (l : list A) : result (list B) :=
  match l with
  | [] => Ok []
  | x :: r => bind (f x) (fun y => bind (mapM f r) (fun ys => Ok (y :: ys)))
  end.

(** [x || d] on a value that may be [undefined]. *)
Definition orElse {A} (x : option A) (d : A) : A :=
  match x with
  | Some a => a
  | None => d
  end.

(** [s || d] on strings: the empty string is falsy. *)
Definition strOr (x : option string) (d : string) : string :=
  match x with
  | Some "" => d
  | Some s => s
  | None => d
  end.

(** Truthiness of a string, as in [if (searchQuery)]. *)
Definition truthy (s : string) : bool :=
  match s with
  | "" => false
  | _ => true
  end.

(** *** Strings *)

Definition code (c : ascii) : N := N_of_ascii c.

Definition lowerChar (c : ascii) : ascii :=
  if (65 <=? code c)%N && (code c <=? 90)%N
  then ascii_of_N (code c + 32)
  else c.

Fixpoint toLowerCase (s : string) : string :=
  match s with
  | "" => ""
  | String c r => String (lowerChar c) (toLowerCase r)
  end.

(** [s.startsWith(p)]. *)
Fixpoint startsWith (s p : string) : bool :=
  match p, s with
  | "", _ => true
  | String _ _, "" => false
  | String a p', String b s' => Ascii.eqb a b && startsWith s' p'
  end.

(** [s.includes(t)]: [t] occurs in [s] at some position. *)
Fixpoint includes (s t : string) : bool :=
  startsWith s t ||
  match s with
  | "" => false
  | String _ r => includes r t
  end.

(** What is left of [s] after the prefix [p], when [p] is one. *)
Fixpoint dropPrefix (s p : string) : option string :=
  match p, s with
  | "", _ => Some s
  | String _ _, "" => None
  | String a p', String b s' =>
      if Ascii.eqb a b then dropPrefix s' p' else None
  end.

(** [s.replace(pat, rep)] with a string pattern: the first occurrence only. *)
Fixpoint replace (s pat rep : string) : string :=
  match dropPrefix s pat with
  | Some rest => rep ++ rest
  | None =>
      match s with
      | "" => ""
      | String c r => String c (replace r pat rep)
      end
  end.

(** [s.split(sep)] for a one-character separator: never empty. *)
Fixpoint split (s : string) (sep : ascii) : list string :=
  match s with
  | "" => [""]
  | String c r =>
      if Ascii.eqb c sep then "" :: split r sep
      else match split r sep with
           | [] => [String c ""]
           | w :: ws => String c w :: ws
           end
  end.

(** White space and line ends, by the bytes of each character.
    One byte: TAB, LF, VT, FF, CR and the space. *)
Definition isWhiteSpace (c : ascii) : bool :=
  ((9 <=? code c)%N && (code c <=? 13)%N) || (code c =? 32)%N.

(** Two bytes: the no-break space U+00A0. *)
Definition isWhiteSpace2 (c1 c2 : ascii) : bool :=
  ((code c1 =? 194) && (code c2 =? 160))%N.

(** Three bytes: U+1680, U+2000 to U+200A, U+2028, U+2029, U+202F, U+205F,
    U+3000 and U+FEFF. *)
Definition isWhiteSpace3 (c1 c2 c3 : ascii) : bool :=
  (((code c1 =? 225) && (code c2 =? 154) && (code c3 =? 128))
   || ((code c1 =? 226) && (code c2 =? 128)
       && (((128 <=? code c3) && (code c3 <=? 138))
           || (code c3 =? 168) || (code c3 =? 169) || (code c3 =? 175)))
   || ((code c1 =? 226) && (code c2 =? 129) && (code c3 =? 159))
   || ((code c1 =? 227) && (code c2 =? 128) && (code c3 =? 128))
   || ((code c1 =? 239) && (code c2 =? 187) && (code c3 =? 191)))%N.

Fixpoint trimStart (s : string) : string :=
  match s with
  | "" => ""
  | String c1 r1 =>
      if isWhiteSpace c1 then trimStart r1
      else
        match r1 with
        | "" => s
        | String c2 r2 =>
            if isWhiteSpace2 c1 c2 then trimStart r2
            else
              match r2 with
              | "" => s
              | String c3 r3 =>
                  if isWhiteSpace3 c1 c2 c3 then trimStart r3 else s
              end
        end
  end.

(** [s] holds white space only. *)
Definition onlyWhiteSpace (s : string) : bool :=
  match trimStart s with
  | "" => true
  | _ => false
  end.

(** The text up to where only white space is left. *)
Fixpoint trimEnd (s : string) : string :=
  match s with
  | "" => ""
  | String c r => if onlyWhiteSpace s then "" else String c (trimEnd r)
  end.

Definition trim (s : string) : string := trimEnd (trimStart s).

(** *** [parseInt]

    The argument is first turned into a string ([undefined] prints as
    ["undefined"]); leading white space is skipped, then a sign, then a
    [0x] prefix which switches to radix 16; the longest run of digits of
    the radix is read.  No digit at all is [NaN], here [None].  The value
    read is returned as a double: the nearest one, the even one of two
    nearest, and the infinity beyond the largest. *)

(** The integer that stands for the positive infinity: every finite double
    is below it. *)
Definition Infinity : Z := 2 ^ 1024.

(** The double nearest to the integer [m >= 0]: [m] itself up to 53 bits,
    else its 53 leading bits rounded on the bits that follow. *)
Definition roundToDouble (m : Z) : Z :=
  if m <? 2 ^ 53 then m
  else
    let e := Z.log2 m - 52 in
    let q := Z.shiftr m e in
    let r := m - Z.shiftl q e in
    let half := 2 ^ (e - 1) in
    let q' := if (half <? r) || ((r =? half) && Z.odd q) then q + 1 else q in
    let d := Z.shiftl q' e in
    if Infinity <=? d then Infinity else d.

Definition toString (x : option string) : string := orElse x "undefined".

Definition digitValue (radix : Z) (c : ascii) : option Z :=
  let n := Z.of_N (code c) in
  let v :=
    if (48 <=? n) && (n <=? 57) then Some (n - 48)
    else if (97 <=? n) && (n <=? 122) then Some (n - 87)
    else if (65 <=? n) && (n <=? 90) then Some (n - 55)
    else None in
  match v with
  | Some d => if d <? radix then Some d else None
  | None => None
  end.

(** The longest run of digits at the head of [s], read in [radix]; [acc] is
    the value of the digits read so far, [None] when there is none yet. *)
Fixpoint readDigits (radix : Z) (s : string) (acc : option Z) : option Z :=
  match s with
  | "" => acc
  | String c r =>
      match digitValue radix c with
      | Some d => readDigits radix r (Some (radix * orElse acc 0 + d))
      | None => acc
      end
  end.

Definition readSign (s : string) : Z * string :=
  match s with
  | String c r =>
      if Ascii.eqb c "-" then (-1, r)
      else if Ascii.eqb c "+" then (1, r)
      else (1, s)
  | "" => (1, s)
  end.

Definition readRadix (s : string) : Z * string :=
  match s with
  | String c (String x r) =>
      if Ascii.eqb c "0" && (Ascii.eqb x "x" || Ascii.eqb x "X")
      then (16, r)
      else (10, s)
  | _ => (10, s)
  end.

Definition parseIntStr (s : string) : option Z :=
  let (sign, s1) := readSign (trimStart s) in
  let (radix, s2) := readRadix s1 in
  match readDigits radix s2 None with
  | Some m => Some (sign * roundToDouble m)
  | None => None
  end.

Definition parseInt (x : option string) : option Z := parseIntStr (toString x).

(** [n || 0] on a number: [NaN] and zero both give zero. *)
Definition numOr0 (n : option Z) : Z := orElse n 0.

(** *** [Array.prototype.sort]

    The language fixes what [sort] returns for a consistent comparator:
    the elements in an order where [cmp a b <= 0] for neighbours, elements
    that compare equal staying in their input order.  Insertion from the
    right, each element going before the first one it does not exceed,
    computes that order. *)

Section Sort.
Context {A : Type} (cmp : A -> A -> Z).

Fixpoint insert (x : A) (l : list A) : list A :=
  match l with
  | [] => [x]
  | y :: r => if cmp x y <=? 0 then x :: l else y :: insert x r
  end.

Definition sort (l : list A) : list A := fold_right insert [] l.
End Sort.

End JS.

Import JS.

(** The two revisions of the component. *)
Inductive Revision : Type :=
| Rich    (* [src/App.jsx] *)
| Basic.  (* the earlier revision *)

(** ** Data model *)

(** An item of the fetched array.  A field that the payload may leave out is
    an [option]; [None] is JavaScript's [undefined]. *)
Module Speciality.
Record t : Type := { name : option string }.
End Speciality.

Module Clinic.
Record address_t : Type := { locality : option string }.
Record t : Type := { name : option string; address : option address_t }.
End Clinic.

Module Payload.
Record t : Type := {
  id : string;
  name : string;
  specialities : option (list Speciality.t);
  experience : option string;
  clinic : option Clinic.t;
  fees : option string;
  photo : option string;
  languages : option (list string);
  video_consult : option bool;
  in_clinic : option bool
}.
End Payload.

(** The item [doctor] with its [specialities] field replaced. *)
Definition withSpecialities (sps : option (list Speciality.t))
  (doctor : Payload.t) : Payload.t :=
  {| Payload.id := Payload.id doctor;
     Payload.name := Payload.name doctor;
     Payload.specialities := sps;
     Payload.experience := Payload.experience doctor;
     Payload.clinic := Payload.clinic doctor;
     Payload.fees := Payload.fees doctor;
     Payload.photo := Payload.photo doctor;
     Payload.languages := Payload.languages doctor;
     Payload.video_consult := Payload.video_consult doctor;
     Payload.in_clinic := Payload.in_clinic doctor |}.

(** What [fetch] followed by [response.json()] can give. *)
Inductive Response : Type :=
| FetchRejected                         (* the request failed *)
| BodyNotJson                           (* the body does not decode *)
| JsonNotArray                          (* decoded, but has no [map] *)
| JsonArray (data : list Payload.t).

(** A record of the view-model.  The [rating] of the richer revision is a
    random number shown next to the name; no operation reads it and it is
    left out. *)
Record DoctorRecord : Type := {
  id : string;
  name : string;
  specialty : string;
  experience : Z;
  location : string;
  address : string;
  fee : Z;
  image : string;
  languages : list string;
  videoConsult : bool;
  inClinic : bool
}.

Module Filters.
Record t : Type := {
  ayurveda : bool;
  homeopath : bool;
  dentist : bool;
  physician : bool;
  gynecologist : bool
}.

(** [Object.entries(filters)], in the order the keys were written. *)
Definition entries (f : t) : list (string * bool) :=
  [ ("ayurveda", ayurveda f); ("homeopath", homeopath f);
    ("dentist", dentist f); ("physician", physician f);
    ("gynecologist", gynecologist f) ].

Definition none : t :=
  {| ayurveda := false; homeopath := false; dentist := false;
     physician := false; gynecologist := false |}.
End Filters.

Module Sorting.
Record t : Type := { fees : bool; experience : bool }.
Definition none : t := {| fees := false; experience := false |}.
End Sorting.

(** The four [useState] slots that make the query criteria. *)
Record Criteria : Type := {
  filters : Filters.t;
  consultationType : string;   (* 'all', 'video', 'clinic' *)
  sorting : Sorting.t;
  searchQuery : string
}.

(** The initial values of the [useState] calls. *)
Definition initialCriteria : Criteria :=
  {| filters := Filters.none; consultationType := "all";
     sorting := Sorting.none; searchQuery := "" |}.

(** ** load: the payload mapping of [fetchDoctors] *)

(** The currency sign that is stripped from [fees]: the rupee sign in
    [src/App.jsx]; the earlier revision has other bytes at that place. *)
Definition glyph (v : Revision) : string :=
  match v with
  | Rich => String "226" (String "130" (String "185" ""))
  | Basic =>
      String "226" (String "128" (String "154" (String "195"
        (String "135" (String "207" (String "128" ""))))))
  end.

(** [a?.f]: [undefined] when [a] is. *)
Definition chain {A B} (a : option A) (f : A -> option B) : option B :=
  match a with
  | Some x => f x
  | None => None
  end.

(** [doctor.specialities[0]?.name]: reading index 0 of [undefined] throws. *)
Definition firstSpecialityName (doctor : Payload.t) : result (option string) :=
  match Payload.specialities doctor with
  | None => Throw TypeError
  | Some sps => Ok (chain (nth_error sps 0) Speciality.name)
  end.

Definition transform (v : Revision) (doctor : Payload.t) : result DoctorRecord :=
  bind (firstSpecialityName doctor) (fun sp =>
  Ok {| id := Payload.id doctor;
        name := Payload.name doctor;
        specialty := strOr sp "";
        experience :=
          numOr0 (parseInt (chain (Payload.experience doctor)
                                  (fun e => nth_error (split e " ") 0)));
        location :=
          strOr (chain (chain (Payload.clinic doctor) Clinic.address)
                       Clinic.locality) "";
        address := strOr (chain (Payload.clinic doctor) Clinic.name) "";
        fee :=
          numOr0 (parseInt (chain (Payload.fees doctor)
                                  (fun f => Some (trim (replace f (glyph v) "")))));
        image := strOr (Payload.photo doctor) "https://via.placeholder.com/80";
        languages := orElse (Payload.languages doctor) [];
        videoConsult := orElse (Payload.video_consult doctor) false;
        inClinic := orElse (Payload.in_clinic doctor) false |}).

(** ** applyQuery: the filtering and sorting effect *)

Definition activeSpecialtyFilters (f : Filters.t) : list string :=
  map fst (filter (fun e => snd e) (Filters.entries f)).

Definition specialtyFilter (f : Filters.t) (result : list DoctorRecord)
  : list DoctorRecord :=
  let active := activeSpecialtyFilters f in
  if (0 <? List.length active)%nat then
    filter (fun doctor =>
              let docSpecialty := toLowerCase (specialty doctor) in
              existsb (fun sp => includes docSpecialty (toLowerCase sp)) active)
           result
  else result.

Definition consultationFilter (consultationType : string)
  (result : list DoctorRecord) : list DoctorRecord :=
  if negb (consultationType =? "all")%string then
    filter (fun doctor =>
              if (consultationType =? "video")%string then videoConsult doctor
              else if (consultationType =? "clinic")%string then inClinic doctor
              else true)
           result
  else result.

Definition searchFilter (v : Revision) (searchQuery : string)
  (result : list DoctorRecord) : list DoctorRecord :=
  if truthy searchQuery then
    filter (fun doctor =>
              match v with
              | Rich =>
                  includes (toLowerCase (name doctor)) (toLowerCase searchQuery)
                  || includes (toLowerCase (specialty doctor))
                              (toLowerCase searchQuery)
              | Basic =>
                  includes (toLowerCase (name doctor)) (toLowerCase searchQuery)
              end)
           result
  else result.

(** The two comparators.  [sort] reads the sign of the difference only; the
    difference of two infinities of one sign is [NaN], which [sort] reads as
    0, as here. *)
Definition byFee (a b : DoctorRecord) : Z := fee a - fee b.
Definition byExperience (a b : DoctorRecord) : Z := experience b - experience a.

Definition applySorting (s : Sorting.t) (result : list DoctorRecord)
  : list DoctorRecord :=
  if Sorting.fees s then sort byFee result
  else if Sorting.experience s then sort byExperience result
  else result.

Definition applyQuery (v : Revision) (doctors : list DoctorRecord) (c : Criteria)
  : list DoctorRecord :=
  let result := doctors in
  let result := specialtyFilter (filters c) result in
  let result := consultationFilter (consultationType c) result in
  let result := searchFilter v (searchQuery c) result in
  applySorting (sorting c) result.

(** ** The query string *)

(** [URLSearchParams]: an ordered list of name and value pairs, printed and
    parsed in the [application/x-www-form-urlencoded] format. *)
Module URLSearchParams.

Definition t : Type := list (string * string).

Definition empty : t := [].

(** [params.get(name)]: the first value under [name], [null] if none. *)
Fixpoint get (p : t) (name : string) : option string :=
  match p with
  | [] => None
  | (k, x) :: r => if (k =? name)%string then Some x else get r name
  end.

Definition remove (p : t) (name : string) : t :=
  filter (fun e => negb (fst e =? name)%string) p.

(** [params.set(name, value)]: the first pair under [name] takes the
    value and the others go; a new name is added at the end. *)
Fixpoint set (p : t) (name value : string) : t :=
  match p with
  | [] => [(name, value)]
  | (k, x) :: r =>
      if (k =? name)%string then (k, value) :: remove r name
      else (k, x) :: set r name value
  end.

Definition hexDigit (n : N) : ascii :=
  if (n <? 10)%N then ascii_of_N (48 + n) else ascii_of_N (55 + n).

(** Bytes that are written as they are: [*], [-], [.], [_], digits and
    letters. *)
Definition unreserved (c : ascii) : bool :=
  let n := code c in
  ((n =? 42) || (n =? 45) || (n =? 46) || (n =? 95)
   || ((48 <=? n) && (n <=? 57))
   || ((65 <=? n) && (n <=? 90))
   || ((97 <=? n) && (n <=? 122)))%N.

Definition encodeByte (c : ascii) : string :=
  if unreserved c then String c ""
  else if (code c =? 32)%N then "+"
  else String "%" (String (hexDigit (code c / 16))
                     (String (hexDigit (code c mod 16)) "")).

Fixpoint encode (s : string) : string :=
  match s with
  | "" => ""
  | String c r => encodeByte c ++ encode r
  end.

Fixpoint join (sep : string) (l : list string) : string :=
  match l with
  | [] => ""
  | [x] => x
  | x :: r => x ++ sep ++ join sep r
  end.

(** [params.toString()]. *)
Definition toString (p : t) : string :=
  join "&" (map (fun e => encode (fst e) ++ "=" ++ encode (snd e)) p).

Definition hexValue (c : ascii) : option N :=
  match digitValue 16 c with
  | Some d => Some (Z.to_N d)
  | None => None
  end.

(** [+] is a space, [%XY] is the byte [XY]; a [%] that is not followed by
    two hexadecimal digits stays. *)
Fixpoint decode (s : string) : string :=
  match s with
  | "" => ""
  | String c r =>
      if (code c =? 43)%N then String " " (decode r)
      else if (code c =? 37)%N then
        match r with
        | String h (String l r') =>
            match hexValue h, hexValue l with
            | Some a, Some b =>
                String (ascii_of_N (16 * a + b)) (decode r')
            | _, _ => String c (decode r)
            end
        | _ => String c (decode r)
        end
      else String c (decode r)
  end.

(** The text before the first [sep] and the text after it. *)
Fixpoint cut (s : string) (sep : ascii) : string * string :=
  match s with
  | "" => ("", "")
  | String c r =>
      if Ascii.eqb c sep then ("", r)
      else let (a, b) := cut r sep in (String c a, b)
  end.

(** The parser: pieces between [&], empty pieces skipped, each cut at its
    first [=]. *)
Definition parse (query : string) : t :=
  flat_map (fun piece =>
              if truthy piece
              then let (k, x) := cut piece "=" in [(decode k, decode x)]
              else [])
           (split query "&").

(** [new URLSearchParams(init)]: one leading [?] is dropped. *)
Definition ofString (init : string) : t :=
  match init with
  | String "?" r => parse r
  | _ => parse init
  end.
End URLSearchParams.

(** [window.location.search] once the address is [pathname?query]: empty for
    an empty query, else the query after its [?]. *)
Definition locationSearch (query : string) : string :=
  if truthy query then "?" ++ query else "".

(** [if (b) params.set(name, value)]. *)
Definition setIf (b : bool) (params : URLSearchParams.t) (name value : string)
  : URLSearchParams.t :=
  if b then URLSearchParams.set params name value else params.

(** The parameters written by the effect that follows [applyQuery]. *)
Definition criteriaParams (c : Criteria) : URLSearchParams.t :=
  let params := URLSearchParams.empty in
  let params :=
    fold_left (fun (p : URLSearchParams.t) (e : string * bool) =>
                 setIf (snd e) p ("filter-specialty-" ++ fst e) "true")
              (Filters.entries (filters c)) params in
  let params :=
    setIf (negb (consultationType c =? "all")%string)
          params "consultation-type" (consultationType c) in
  let params := setIf (Sorting.fees (sorting c)) params "sort-fees" "true" in
  let params :=
    setIf (Sorting.experience (sorting c)) params "sort-experience" "true" in
  setIf (truthy (searchQuery c)) params "search" (searchQuery c).

(** The query string put after [pathname?] by [replaceState]. *)
Definition serializeToURL (c : Criteria) : string :=
  URLSearchParams.toString (criteriaParams c).

(** [params.get(name) === 'true']. *)
Definition isTrue (x : option string) : bool :=
  match x with
  | Some s => (s =? "true")%string
  | None => false
  end.

(** The effect that reads [window.location.search] when the page loads;
    [c] holds the criteria at that moment. *)
Definition deserializeFromURL (search : string) (c : Criteria) : Criteria :=
  let params := URLSearchParams.ofString search in
  let flag key := isTrue (URLSearchParams.get params ("filter-specialty-" ++ key)) in
  let newFilters :=
    {| Filters.ayurveda := flag "ayurveda";
       Filters.homeopath := flag "homeopath";
       Filters.dentist := flag "dentist";
       Filters.physician := flag "physician";
       Filters.gynecologist := flag "gynecologist" |} in
  let consultType := URLSearchParams.get params "consultation-type" in
  {| filters := newFilters;
     consultationType :=
       match consultType with
       | Some t => if truthy t then t else consultationType c
       | None => consultationType c
       end;
     sorting :=
       {| Sorting.fees := isTrue (URLSearchParams.get params "sort-fees");
          Sorting.experience :=
            isTrue (URLSearchParams.get params "sort-experience") |};
     searchQuery :=
       match URLSearchParams.get params "search" with
       | Some q => if truthy q then q else searchQuery c
       | None => searchQuery c
       end |}.

(** ** The handlers *)

(** The setters of the four [useState] slots. *)
Definition setFilters (f : Filters.t) (c : Criteria) : Criteria :=
  {| filters := f; consultationType := consultationType c;
     sorting := sorting c; searchQuery := searchQuery c |}.

Definition setConsultationType (type : string) (c : Criteria) : Criteria :=
  {| filters := filters c; consultationType := type;
     sorting := sorting c; searchQuery := searchQuery c |}.

Definition setSorting (s : Sorting.t) (c : Criteria) : Criteria :=
  {| filters := filters c; consultationType := consultationType c;
     sorting := s; searchQuery := searchQuery c |}.

Definition setSearchQuery (q : string) (c : Criteria) : Criteria :=
  {| filters := filters c; consultationType := consultationType c;
     sorting := sorting c; searchQuery := q |}.

Inductive SpecialtyKey : Type :=
| ayurveda | homeopath | dentist | physician | gynecologist.

(** [{...prev, [filterName]: value}]. *)
Definition updateFilter (prev : Filters.t) (filterName : SpecialtyKey)
  (value : bool) : Filters.t :=
  match filterName with
  | ayurveda =>
      {| Filters.ayurveda := value;
         Filters.homeopath := Filters.homeopath prev;
         Filters.dentist := Filters.dentist prev;
         Filters.physician := Filters.physician prev;
         Filters.gynecologist := Filters.gynecologist prev |}
  | homeopath =>
      {| Filters.ayurveda := Filters.ayurveda prev;
         Filters.homeopath := value;
         Filters.dentist := Filters.dentist prev;
         Filters.physician := Filters.physician prev;
         Filters.gynecologist := Filters.gynecologist prev |}
  | dentist =>
      {| Filters.ayurveda := Filters.ayurveda prev;
         Filters.homeopath := Filters.homeopath prev;
         Filters.dentist := value;
         Filters.physician := Filters.physician prev;
         Filters.gynecologist := Filters.gynecologist prev |}
  | physician =>
      {| Filters.ayurveda := Filters.ayurveda prev;
         Filters.homeopath := Filters.homeopath prev;
         Filters.dentist := Filters.dentist prev;
         Filters.physician := value;
         Filters.gynecologist := Filters.gynecologist prev |}
  | gynecologist =>
      {| Filters.ayurveda := Filters.ayurveda prev;
         Filters.homeopath := Filters.homeopath prev;
         Filters.dentist := Filters.dentist prev;
         Filters.physician := Filters.physician prev;
         Filters.gynecologist := value |}
  end.

Definition handleFilterChange (filterName : SpecialtyKey) (value : bool)
  (c : Criteria) : Criteria :=
  setFilters (updateFilter (filters c) filterName value) c.

Definition handleConsultationTypeChange (type : string) (c : Criteria)
  : Criteria :=
  setConsultationType type c.

Definition handleSortChange (sortType : string) (c : Criteria) : Criteria :=
  setSorting {| Sorting.fees := (sortType =? "fees")%string;
                Sorting.experience := (sortType =? "experience")%string |} c.

Definition handleSearchChange (value : string) (c : Criteria) : Criteria :=
  setSearchQuery value c.

(** Only in [src/App.jsx]. *)
Definition clearAllFilters (c : Criteria) : Criteria :=
  setSearchQuery ""
    (setSorting {| Sorting.fees := false; Sorting.experience := false |}
       (setConsultationType "all" (setFilters Filters.none c))).

(** What the user can do to the criteria. *)
Inductive Action : Type :=
| FilterChange (filterName : SpecialtyKey) (value : bool)
| ConsultationTypeChange (type : string)
| SortChange (sortType : string)
| SearchChange (value : string)
| ClearAll.

(** The "clear all" button exists in the richer revision only. *)
Definition offers (v : Revision) (a : Action) : bool :=
  match a, v with
  | ClearAll, Basic => false
  | _, _ => true
  end.

Definition act (a : Action) (c : Criteria) : Criteria :=
  match a with
  | FilterChange filterName value => handleFilterChange filterName value c
  | ConsultationTypeChange type => handleConsultationTypeChange type c
  | SortChange sortType => handleSortChange sortType c
  | SearchChange value => handleSearchChange value c
  | ClearAll => clearAllFilters c
  end.

(** *** The page: the criteria and the address

    [search] is [window.location.search].  The effect that filters and
    writes the address is declared before the one that reads the address, and
    effects run in the order they are declared. *)
Record Page : Type := {
  criteria : Criteria;
  search : string
}.

(** The end of the filtering effect: [replaceState] with the query string of
    the criteria. *)
Definition writeEffect (p : Page) : Page :=
  {| criteria := criteria p;
     search := locationSearch (serializeToURL (criteria p)) |}.

(** The effect that reads the address, once, when the page loads. *)
Definition readEffect (p : Page) : Page :=
  {| criteria := deserializeFromURL (search p) (criteria p);
     search := search p |}.

(** The page is opened at an address whose query part is [search0]: the
    first render has the initial criteria; the filtering effect runs, then
    the reading effect; the criteria it sets make the filtering effect run
    once more. *)
Definition mount (search0 : string) : Page :=
  let p := {| criteria := initialCriteria; search := search0 |} in
  let p := writeEffect p in
  let p := readEffect p in
  writeEffect p.

(** A handler changes the criteria and the filtering effect follows. *)
Definition handle (a : Action) (p : Page) : Page :=
  writeEffect {| criteria := act a (criteria p); search := search p |}.

(** The states of the page: opened at any address, then any of the
    handlers its revision offers, any number of times. *)
Inductive PageReachable (v : Revision) : Page -> Prop :=
| page_opened (search0 : string) : PageReachable v (mount search0)
| page_handled (a : Action) (p : Page) :
    PageReachable v p -> offers v a = true -> PageReachable v (handle a p).

(** The two sort flags are not both set. *)
Definition oneSortAtMost (c : Criteria) : Prop :=
  Sorting.fees (sorting c) && Sorting.experience (sorting c) = false.

(** ** The component's state around the fetch *)

Record State : Type := {
  doctors : list DoctorRecord;
  filteredDoctors : list DoctorRecord;
  isLoading : bool;
  console : list exn;     (* what [console.error] was given, oldest first *)
  requests : nat          (* how many times [fetch] was called *)
}.

(** The [useState] initial values. *)
Definition initialState : State :=
  {| doctors := []; filteredDoctors := []; isLoading := true;
     console := []; requests := 0 |}.

Definition setDoctors (l : list DoctorRecord) (st : State) : State :=
  {| doctors := l; filteredDoctors := filteredDoctors st;
     isLoading := isLoading st; console := console st;
     requests := requests st |}.

Definition setFilteredDoctors (l : list DoctorRecord) (st : State) : State :=
  {| doctors := doctors st; filteredDoctors := l;
     isLoading := isLoading st; console := console st;
     requests := requests st |}.

Definition setIsLoading (b : bool) (st : State) : State :=
  {| doctors := doctors st; filteredDoctors := filteredDoctors st;
     isLoading := b; console := console st; requests := requests st |}.

Definition consoleError (e : exn) (st : State) : State :=
  {| doctors := doctors st; filteredDoctors := filteredDoctors st;
     isLoading := isLoading st; console := console st ++ [e];
     requests := requests st |}.

Definition callFetch (st : State) : State :=
  {| doctors := doctors st; filteredDoctors := filteredDoctors st;
     isLoading := isLoading st; console := console st;
     requests := S (requests st) |}.

(** The body of the [try] block: the two [await]s and the mapping. *)
Definition transformedData (v : Revision) (r : Response)
  : result (list DoctorRecord) :=
  match r with
  | FetchRejected => Throw NetworkError
  | BodyNotJson => Throw SyntaxError
  | JsonNotArray => Throw TypeError
  | JsonArray data => mapM (transform v) data
  end.

(** [fetchDoctors] up to its first [await]. *)
Definition fetchStart (st : State) : State := callFetch (setIsLoading true st).

(** [fetchDoctors] from the moment the request settles with [r]. *)
Definition fetchSettle (v : Revision) (r : Response) (st : State) : State :=
  let st :=
    match transformedData v r with
    | Ok data => setFilteredDoctors data (setDoctors data st)
    | Throw error =>
        setFilteredDoctors [] (setDoctors [] (consoleError error st))
    end in
  setIsLoading false st.

Definition fetchDoctors (v : Revision) (r : Response) (st : State) : State :=
  fetchSettle v r (fetchStart st).

(** The filtering effect runs again when [doctors] changes. *)
Definition applyEffect (v : Revision) (c : Criteria) (st : State) : State :=
  setFilteredDoctors (applyQuery v (doctors st) c) st.

(** What the list area of the page shows. *)
Inductive View : Type :=
| Spinner
| Cards (l : list DoctorRecord)
| NoDoctorsFound.

Definition render (st : State) : View :=
  if isLoading st then Spinner
  else if (0 <? List.length (filteredDoctors st))%nat
       then Cards (filteredDoctors st)
       else NoDoctorsFound.

(** The text of [s] before its first space. *)
Fixpoint firstWord (s : string) : string :=
  match s with
  | "" => ""
  | String c r => if Ascii.eqb c " " then "" else String c (firstWord r)
  end.

(** ** The predicates of the query, as the specification words them *)

(** [t] occurs in [s]. *)
Definition occursIn (t s : string) : Prop :=
  exists a b, s = a ++ t ++ b.

(** No key active, or the specialty contains an active key, case ignored. *)
Definition specialtyPredicate (f : Filters.t) (d : DoctorRecord) : bool :=
  match activeSpecialtyFilters f with
  | [] => true
  | active =>
      existsb (fun key => includes (toLowerCase (specialty d)) (toLowerCase key))
              active
  end.

(** Video keeps the records with video, clinic those with a clinic, any
    other mode keeps all. *)
Definition modePredicate (mode : string) (d : DoctorRecord) : bool :=
  if (mode =? "video")%string then videoConsult d
  else if (mode =? "clinic")%string then inClinic d
  else true.

(** The search text occurs in the name (or, richer revision, in the
    specialty), case ignored; the empty text matches all. *)
Definition searchPredicate (v : Revision) (q : string) (d : DoctorRecord) : bool :=
  match q with
  | "" => true
  | _ =>
      includes (toLowerCase (name d)) (toLowerCase q)
      || match v with
         | Rich => includes (toLowerCase (specialty d)) (toLowerCase q)
         | Basic => false
         end
  end.

Definition passes (v : Revision) (c : Criteria) (d : DoctorRecord) : bool :=
  specialtyPredicate (filters c) d
  && modePredicate (consultationType c) d
  && searchPredicate v (searchQuery c) d.

(** [l1] is [l2] with some elements left out. *)
Inductive Subsequence {A : Type} : list A -> list A -> Prop :=
| sub_nil : Subsequence [] []
| sub_skip x l1 l2 : Subsequence l1 l2 -> Subsequence l1 (x :: l2)
| sub_keep x l1 l2 : Subsequence l1 l2 -> Subsequence (x :: l1) (x :: l2).

(** Records with the given fee, in list order. *)
Definition withFee (k : Z) (l : list DoctorRecord) : list DoctorRecord :=
  filter (fun d => fee d =? k) l.

Definition withExperience (k : Z) (l : list DoctorRecord) : list DoctorRecord :=
  filter (fun d => experience d =? k) l.

(** ** Sample data and auxiliary notions for the statements *)

(** Sample records and criteria for the examples that follow. *)
Definition sampleDoctor (i n s : string) (e f : Z) (video clinic : bool)
  : DoctorRecord :=
  {| id := i; name := n; specialty := s; experience := e; location := "";
     address := ""; fee := f; image := "https://via.placeholder.com/80";
     languages := []; videoConsult := video; inClinic := clinic |}.

Definition sampleDoctors : list DoctorRecord :=
  [ sampleDoctor "1" "Anna Smith" "Dentist" 12 500 true false;
    sampleDoctor "2" "DR. HANNAH" "General Physician" 30 100 false true;
    sampleDoctor "3" "Ravi Kumar" "Dentist" 7 100 true true;
    sampleDoctor "4" "Joanna Roy" "Ayurveda" 12 300 false false ].

Definition sortedByFees : Criteria := handleSortChange "fees" initialCriteria.

Definition sortedByExperience : Criteria :=
  handleSortChange "experience" initialCriteria.

(** A record like [d] under another name. *)
Definition renamed (n : string) (d : DoctorRecord) : DoctorRecord :=
  {| id := id d; name := n; specialty := specialty d;
     experience := experience d; location := location d;
     address := address d; fee := fee d; image := image d;
     languages := languages d; videoConsult := videoConsult d;
     inClinic := inClinic d |}.

Definition dentistOnly : Filters.t := updateFilter Filters.none dentist true.

Definition physicianOnly : Filters.t := updateFilter Filters.none physician true.

Definition dentistAndPhysician : Filters.t :=
  updateFilter dentistOnly physician true.

Definition dentistFeesAnn : Criteria :=
  {| filters := dentistOnly; consultationType := "all";
     sorting := {| Sorting.fees := true; Sorting.experience := false |};
     searchQuery := "ann" |}.

(** [c] occurs in [s]. *)
Fixpoint hasChar (c : ascii) (s : string) : bool :=
  match s with
  | "" => false
  | String x r => Ascii.eqb x c || hasChar c r
  end.

(** One pair as [toString] writes it. *)
Definition piece (e : string * string) : string :=
  URLSearchParams.encode (fst e) ++ "=" ++ URLSearchParams.encode (snd e).

(** [t] is [s] cut at its end or just before a space. *)
Definition WordOf (t s : string) : Prop :=
  exists r, s = t ++ r /\ (r = "" \/ exists r', r = String " " r').

(** A payload item with a malformed experience, no fees and an empty list
    of specialities. *)
Definition malformedItem : Payload.t :=
  {| Payload.id := "7"; Payload.name := "Anna Smith";
     Payload.specialities := Some [];
     Payload.experience := Some "not a number";
     Payload.clinic := None; Payload.fees := None; Payload.photo := None;
     Payload.languages := None; Payload.video_consult := None;
     Payload.in_clinic := None |}.

(** A payload item as the endpoint serves them. *)
Definition wellFormedItem : Payload.t :=
  {| Payload.id := "8"; Payload.name := "Ravi Kumar";
     Payload.specialities := Some [ {| Speciality.name := Some "Dentist" |} ];
     Payload.experience := Some "13 Years of experience";
     Payload.clinic :=
       Some {| Clinic.name := Some "Smile Clinic";
               Clinic.address := Some {| Clinic.locality := Some "Kondapur" |} |};
     Payload.fees := Some (glyph Rich ++ " 500");
     Payload.photo := None;
     Payload.languages := Some ["English"; "Hindi"];
     Payload.video_consult := Some true; Payload.in_clinic := None |}.

(** ** Further notions for the statements *)

(** The item [doctor] with its [experience] field, or its [fees] field,
    replaced. *)
Definition withExperienceField (e : option string) (doctor : Payload.t)
  : Payload.t :=
  {| Payload.id := Payload.id doctor;
     Payload.name := Payload.name doctor;
     Payload.specialities := Payload.specialities doctor;
     Payload.experience := e;
     Payload.clinic := Payload.clinic doctor;
     Payload.fees := Payload.fees doctor;
     Payload.photo := Payload.photo doctor;
     Payload.languages := Payload.languages doctor;
     Payload.video_consult := Payload.video_consult doctor;
     Payload.in_clinic := Payload.in_clinic doctor |}.

Definition withFeesField (f : option string) (doctor : Payload.t) : Payload.t :=
  {| Payload.id := Payload.id doctor;
     Payload.name := Payload.name doctor;
     Payload.specialities := Payload.specialities doctor;
     Payload.experience := Payload.experience doctor;
     Payload.clinic := Payload.clinic doctor;
     Payload.fees := f;
     Payload.photo := Payload.photo doctor;
     Payload.languages := Payload.languages doctor;
     Payload.video_consult := Payload.video_consult doctor;
     Payload.in_clinic := Payload.in_clinic doctor |}.

(** The decimal writing of [n]. *)
Definition decimal (n : nat) : string :=
  NilEmpty.string_of_uint (Nat.to_uint n).

(** Every character of [s] is an ASCII one. *)
Fixpoint isAscii (s : string) : bool :=
  match s with
  | "" => true
  | String c r => (code c <? 128)%N && isAscii r
  end.

(** The name of a key in the [filters] object. *)
Definition keyName (k : SpecialtyKey) : string :=
  match k with
  | ayurveda => "ayurveda"
  | homeopath => "homeopath"
  | dentist => "dentist"
  | physician => "physician"
  | gynecologist => "gynecologist"
  end.

(** [filters[key]]. *)
Definition flagOf (f : Filters.t) (k : SpecialtyKey) : bool :=
  match k with
  | ayurveda => Filters.ayurveda f
  | homeopath => Filters.homeopath f
  | dentist => Filters.dentist f
  | physician => Filters.physician f
  | gynecologist => Filters.gynecologist f
  end.

(** Case analysis on the first digit of a decimal writing. *)
Ltac each_digit d :=
  destruct d as [|d|d|d|d|d|d|d|d|d|d].

(* Evaluates the value of a digit character left in the goal. *)
Ltac digit_value :=
  match goal with
  | |- context [Z.of_N (code ?c) - 48] =>
      let k := eval vm_compute in (Z.of_N (code c) - 48) in
      change (Z.of_N (code c) - 48) with k
  end.

(** * Properties *)

(** ** Lists and the sort *)

Section ListFacts.
Context {A : Type}.

Lemma filter_twice (p q : A -> bool) (l : list A) :
  filter q (filter p l) = filter (fun x => p x && q x) l.
Proof.
  induction l as [|x l IH]; simpl; auto.
  destruct (p x); simpl; rewrite IH; reflexivity.
Qed.

Lemma filter_all (p : A -> bool) (l : list A) :
  (forall x, p x = true) -> filter p l = l.
Proof.
  intros Hp. induction l as [|x l IH]; simpl; auto.
  rewrite Hp, IH. reflexivity.
Qed.

Lemma filter_Subsequence (p : A -> bool) (l : list A) :
  Subsequence (filter p l) l.
Proof.
  induction l as [|x l IH]; simpl.
  - constructor.
  - destruct (p x); constructor; assumption.
Qed.

Lemma Sorted_weaken (R R' : A -> A -> Prop) (l : list A) :
  (forall a b, R a b -> R' a b) -> Sorted R l -> Sorted R' l.
Proof.
  intros HR Hs. induction Hs as [|x l Hl IH Hx]; constructor; auto.
  destruct Hx; constructor; auto.
Qed.

Variable cmp : A -> A -> Z.

Lemma insert_Permutation (x : A) (l : list A) :
  Permutation (insert cmp x l) (x :: l).
Proof.
  induction l as [|y l IH]; simpl; auto.
  destruct (cmp x y <=? 0); auto.
  rewrite IH. apply perm_swap.
Qed.

Lemma sort_Permutation (l : list A) : Permutation (sort cmp l) l.
Proof.
  induction l as [|x l IH]; simpl; auto.
  fold (sort cmp l). rewrite insert_Permutation. auto.
Qed.

(** The comparator is a difference of integer keys, so one of [cmp x y]
    and [cmp y x] is never positive. *)
Hypothesis cmp_total : forall x y, 0 < cmp x y -> cmp y x <= 0.

Let le (a b : A) : Prop := cmp a b <= 0.

Lemma insert_HdRel (a x : A) (l : list A) :
  le a x -> HdRel le a l -> HdRel le a (insert cmp x l).
Proof.
  intros Hax Hal. destruct l as [|y l]; simpl.
  - constructor. exact Hax.
  - destruct (cmp x y <=? 0); constructor; auto.
    inversion Hal; assumption.
Qed.

Lemma insert_Sorted (x : A) (l : list A) :
  Sorted le l -> Sorted le (insert cmp x l).
Proof.
  induction l as [|y l IH]; intros Hs; simpl.
  - repeat constructor.
  - destruct (Z.leb_spec (cmp x y) 0) as [Hxy|Hxy].
    + constructor; [exact Hs | constructor; exact Hxy].
    + inversion Hs as [|? ? Hl Hy]; subst.
      constructor; [apply IH; exact Hl |].
      apply insert_HdRel; [apply cmp_total; exact Hxy | exact Hy].
Qed.

Lemma sort_Sorted (l : list A) : Sorted le (sort cmp l).
Proof.
  induction l as [|x l IH]; simpl.
  - constructor.
  - apply insert_Sorted. exact IH.
Qed.

(** Stability: a class [p] of elements that compare equal keeps its
    order. *)
Lemma insert_filter (p : A -> bool) (x : A) (l : list A) :
  (forall y, p x = true -> p y = true -> cmp x y <= 0) ->
  filter p (insert cmp x l) = filter p (x :: l).
Proof.
  intros Heq. induction l as [|y l IH]; simpl; auto.
  destruct (Z.leb_spec (cmp x y) 0) as [Hxy|Hxy]; simpl; auto.
  simpl in IH. rewrite IH.
  destruct (p x) eqn:Hx; auto.
  destruct (p y) eqn:Hy; auto.
  specialize (Heq y eq_refl Hy). lia.
Qed.

Lemma sort_filter (p : A -> bool) (l : list A) :
  (forall x y, p x = true -> p y = true -> cmp x y <= 0) ->
  filter p (sort cmp l) = filter p l.
Proof.
  intros Heq. induction l as [|x l IH]; simpl; auto.
  fold (sort cmp l). rewrite insert_filter by (intros; apply Heq; auto).
  simpl. rewrite IH. reflexivity.
Qed.
End ListFacts.

(** The three filters of the effect, each as one [filter]. *)
Lemma specialtyFilter_filter (f : Filters.t) (l : list DoctorRecord) :
  specialtyFilter f l = filter (specialtyPredicate f) l.
Proof.
  unfold specialtyFilter, specialtyPredicate.
  destruct (activeSpecialtyFilters f) as [|k ks]; simpl.
  - symmetry. apply filter_all. reflexivity.
  - reflexivity.
Qed.

Lemma consultationFilter_filter (mode : string) (l : list DoctorRecord) :
  consultationFilter mode l = filter (modePredicate mode) l.
Proof.
  unfold consultationFilter, modePredicate.
  destruct (mode =? "all")%string eqn:Hall; simpl; [|reflexivity].
  apply String.eqb_eq in Hall. subst mode. simpl.
  symmetry. apply filter_all. reflexivity.
Qed.

Lemma searchFilter_filter (v : Revision) (q : string) (l : list DoctorRecord) :
  searchFilter v q l = filter (searchPredicate v q) l.
Proof.
  unfold searchFilter, searchPredicate.
  destruct q as [|c q]; simpl.
  - symmetry. apply filter_all. reflexivity.
  - destruct v; [reflexivity|].
    apply filter_ext. intros d. rewrite orb_false_r. reflexivity.
Qed.

Lemma applySorting_Permutation (s : Sorting.t) (l : list DoctorRecord) :
  Permutation (applySorting s l) l.
Proof.
  unfold applySorting.
  destruct (Sorting.fees s); [apply sort_Permutation|].
  destruct (Sorting.experience s); [apply sort_Permutation|].
  reflexivity.
Qed.

(** The effect as one filter followed by the sort step. *)
Lemma applyQuery_unfold (v : Revision) (L : list DoctorRecord) (c : Criteria) :
  applyQuery v L c = applySorting (sorting c) (filter (passes v c) L).
Proof.
  unfold applyQuery, passes.
  rewrite specialtyFilter_filter, consultationFilter_filter,
    searchFilter_filter, !filter_twice.
  f_equal. apply filter_ext. intros d. apply andb_assoc.
Qed.

Lemma applyQuery_nil (v : Revision) (c : Criteria) : applyQuery v [] c = [].
Proof.
  rewrite applyQuery_unfold. simpl. apply Permutation_nil. symmetry.
  apply applySorting_Permutation.
Qed.

(** C1.  For every raw list [L] and every criteria [c], [applyQuery] returns
    the records of [L] that pass the specialty, consultation-mode and search
    predicates together, in the order of [L] (a subsequence of [L]), then
    sorted when a sort is on: the output is the sort step applied to that
    subsequence, holds the same records as it, and is that subsequence
    itself once the sort is switched off.  The output is written as a function of [L]
    and [c] alone, so equal inputs give equal outputs. *)
Theorem applyQuery_filters_then_sorts (v : Revision) (L : list DoctorRecord)
  (c : Criteria) :
  let kept := filter (passes v c) L in
  Subsequence kept L
  /\ (forall d, In d kept <-> In d L /\ specialtyPredicate (filters c) d = true
                              /\ modePredicate (consultationType c) d = true
                              /\ searchPredicate v (searchQuery c) d = true)
  /\ applyQuery v L c = applySorting (sorting c) kept
  /\ Permutation (applyQuery v L c) kept
  /\ applyQuery v L (setSorting Sorting.none c) = kept.
Proof.
  intros kept.
  assert (Heq : applyQuery v L c = applySorting (sorting c) kept)
    by apply applyQuery_unfold.
  split; [apply filter_Subsequence|].
  split.
  { intros d. unfold kept, passes. rewrite filter_In, !andb_true_iff.
    tauto. }
  split; [exact Heq|].
  split; [rewrite Heq; apply applySorting_Permutation|].
  rewrite applyQuery_unfold. reflexivity.
Qed.

(** ** Sorting *)

(** C4.  When the fee sort is on, neighbours [a], [b] of the output of
    [applyQuery] have [fee a <= fee b], and the records of any one fee stand
    in the output in the order they had before the sort. *)
Theorem applyQuery_fee_ascending_stable (v : Revision) (L : list DoctorRecord)
  (c : Criteria) (Hfees : Sorting.fees (sorting c) = true) :
  Sorted (fun a b => fee a <= fee b) (applyQuery v L c)
  /\ forall k, withFee k (applyQuery v L c) = withFee k (filter (passes v c) L).
Proof.
  rewrite applyQuery_unfold. unfold applySorting. rewrite Hfees. split.
  - apply Sorted_weaken with (R := fun a b => byFee a b <= 0).
    + unfold byFee. intros a b. lia.
    + apply sort_Sorted. unfold byFee. intros x y. lia.
  - intros k. unfold withFee. apply sort_filter.
    intros x y Hx Hy. unfold byFee. lia.
Qed.

Lemma applyQuery_fee_ascending_stable_witness :
  Sorting.fees (sorting sortedByFees) = true
  /\ Sorted (fun a b => fee a <= fee b) (applyQuery Rich sampleDoctors sortedByFees)
  /\ forall k, withFee k (applyQuery Rich sampleDoctors sortedByFees)
               = withFee k (filter (passes Rich sortedByFees) sampleDoctors).
Proof.
  split; [reflexivity|].
  apply (applyQuery_fee_ascending_stable Rich sampleDoctors sortedByFees).
  reflexivity.
Defined.

(** C5.  When the experience sort is the one applied, neighbours [a], [b] of
    the output of [applyQuery] have [experience a >= experience b]. *)
Theorem applyQuery_experience_descending (v : Revision) (L : list DoctorRecord)
  (c : Criteria) (Hfees : Sorting.fees (sorting c) = false)
  (Hexp : Sorting.experience (sorting c) = true) :
  Sorted (fun a b => experience a >= experience b) (applyQuery v L c).
Proof.
  rewrite applyQuery_unfold. unfold applySorting. rewrite Hfees, Hexp.
  apply Sorted_weaken with (R := fun a b => byExperience a b <= 0).
  - unfold byExperience. intros a b. lia.
  - apply sort_Sorted. unfold byExperience. intros x y. lia.
Qed.

Lemma applyQuery_experience_descending_witness :
  Sorting.fees (sorting sortedByExperience) = false
  /\ Sorting.experience (sorting sortedByExperience) = true
  /\ Sorted (fun a b => experience a >= experience b)
            (applyQuery Rich sampleDoctors sortedByExperience).
Proof.
  split; [reflexivity|]. split; [reflexivity|].
  apply (applyQuery_experience_descending Rich sampleDoctors sortedByExperience);
    reflexivity.
Defined.

(** ** Searching and the specialty filter *)

Lemma startsWith_prefix (s p : string) :
  startsWith s p = true <-> exists r, s = p ++ r.
Proof.
  revert s. induction p as [|a p IH]; intros s; simpl.
  - split; [intros _; exists s; reflexivity | destruct s; reflexivity].
  - destruct s as [|b s]; simpl.
    + split; [discriminate | intros [r Hr]; discriminate].
    + rewrite andb_true_iff, Ascii.eqb_eq, IH. split.
      * intros [-> [r ->]]. exists r. reflexivity.
      * intros [r Hr]. injection Hr as -> ->. split; [reflexivity | eauto].
Qed.

Lemma includes_occursIn (s t : string) :
  includes s t = true <-> occursIn t s.
Proof.
  unfold occursIn. induction s as [|c s IH].
  - unfold includes. rewrite orb_false_r, startsWith_prefix. split.
    + intros [r Hr]. exists "", r. exact Hr.
    + intros (a & b & Hab). destruct a; [|discriminate].
      exists b. exact Hab.
  - change (includes (String c s) t)
      with (startsWith (String c s) t || includes s t).
    rewrite orb_true_iff, IH, startsWith_prefix. split.
    + intros [[r Hr] | (a & b & Hab)].
      * exists "", r. exact Hr.
      * exists (String c a), b. simpl. rewrite Hab. reflexivity.
    + intros (a & b & Hab). destruct a as [|c' a]; simpl in Hab.
      * left. exists b. exact Hab.
      * right. injection Hab as -> ->. eauto.
Qed.

(** C6.  The search filter is a substring match that ignores case: under a
    search text that is not empty, a record stays exactly when the
    lower-cased text occurs in its lower-cased name or, in the richer
    revision, in its lower-cased specialty; the empty text keeps every
    record; and ["ann"] keeps a record named ["Anna Smith"] and one named
    ["DR. HANNAH"]. *)
Theorem searchFilter_case_insensitive_substring (v : Revision)
  (l : list DoctorRecord) (d : DoctorRecord) (c : ascii) (q : string) :
  (In d (searchFilter v (String c q) l) <->
     In d l /\
     (occursIn (toLowerCase (String c q)) (toLowerCase (name d))
      \/ (v = Rich
          /\ occursIn (toLowerCase (String c q)) (toLowerCase (specialty d)))))
  /\ searchFilter v "" l = l
  /\ searchFilter v "ann" [renamed "Anna Smith" d; renamed "DR. HANNAH" d]
     = [renamed "Anna Smith" d; renamed "DR. HANNAH" d].
Proof.
  split; [|split].
  - rewrite searchFilter_filter, filter_In. unfold searchPredicate.
    rewrite orb_true_iff, includes_occursIn.
    destruct v.
    + rewrite includes_occursIn. intuition.
    + intuition; discriminate.
  - reflexivity.
  - destruct v; reflexivity.
Qed.

Lemma activeSpecialtyFilters_entries (f : Filters.t) (key : string) :
  In key (activeSpecialtyFilters f) <-> In (key, true) (Filters.entries f).
Proof.
  unfold activeSpecialtyFilters. rewrite in_map_iff. split.
  - intros ([k b] & Hk & Hin). apply filter_In in Hin.
    simpl in *. destruct Hin as [Hin ->]. subst. exact Hin.
  - intros Hin. exists (key, true). split; [reflexivity|].
    apply filter_In. auto.
Qed.

(** C7.  With no key active the specialty filter keeps every record.  In
    general a record stays exactly when no key is active or its lower-cased
    specialty contains an active key, the active keys being those whose
    flag is set.  With "dentist" and "physician" both active the records
    kept are those kept under "dentist" alone together with those kept
    under "physician" alone. *)
Theorem specialtyFilter_union_of_active_keys (l : list DoctorRecord)
  (d : DoctorRecord) (f : Filters.t) :
  specialtyFilter Filters.none l = l
  /\ (In d (specialtyFilter f l) <->
        In d l /\
        (activeSpecialtyFilters f = []
         \/ exists key, In (key, true) (Filters.entries f)
                        /\ occursIn (toLowerCase key) (toLowerCase (specialty d))))
  /\ (In d (specialtyFilter dentistAndPhysician l) <->
        In d (specialtyFilter dentistOnly l)
        \/ In d (specialtyFilter physicianOnly l))
  /\ specialtyFilter dentistAndPhysician l
     = filter (fun r => includes (toLowerCase (specialty r)) "dentist"
                        || includes (toLowerCase (specialty r)) "physician") l.
Proof.
  split; [reflexivity|]. split; [|split].
  - rewrite specialtyFilter_filter, filter_In. unfold specialtyPredicate.
    destruct (activeSpecialtyFilters f) as [|k ks] eqn:Hact.
    + intuition.
    + rewrite <- Hact, existsb_exists. split.
      * intros [Hin (key & Hkey & Hinc)]. split; [exact Hin|]. right.
        exists key. rewrite <- activeSpecialtyFilters_entries.
        apply includes_occursIn in Hinc. auto.
      * intros [Hin [Hnil | (key & Hkey & Hocc)]].
        { rewrite Hact in Hnil. discriminate. }
        split; [exact Hin|]. exists key.
        rewrite activeSpecialtyFilters_entries, includes_occursIn. auto.
  - rewrite !specialtyFilter_filter, !filter_In.
    unfold specialtyPredicate. simpl. rewrite !orb_false_r, orb_true_iff.
    tauto.
  - rewrite specialtyFilter_filter. apply filter_ext. intros r.
    unfold specialtyPredicate. simpl. rewrite orb_false_r. reflexivity.
Qed.

(** ** The criteria and the address *)

(** The page comes up with the initial criteria and an empty query,
    whatever the address: the filtering effect has replaced the query by the
    time the reading effect looks at it. *)
Lemma mount_initial (search0 : string) :
  mount search0 = {| criteria := initialCriteria; search := "" |}.
Proof. reflexivity. Qed.

(** C2.  In every state of the page, opened at any address and taken
    through any of the handlers ([handleSortChange] and "clear all" among
    them), the two sort flags are never both set. *)
Theorem page_one_sort_at_most (v : Revision) (p : Page)
  (Hreach : PageReachable v p) :
  oneSortAtMost (criteria p).
Proof.
  unfold oneSortAtMost.
  induction Hreach as [search0|a p Hreach IH Hoff].
  - rewrite mount_initial. reflexivity.
  - destruct a; simpl; try exact IH.
    + destruct (String.eqb_spec sortType "fees") as [->|]; reflexivity.
    + reflexivity.
Qed.

Lemma page_one_sort_at_most_witness :
  oneSortAtMost
    (criteria (handle (SortChange "experience")
                 (mount "?sort-fees=true&sort-experience=true"))).
Proof.
  apply (page_one_sort_at_most Rich).
  apply page_handled; [apply page_opened | reflexivity].
Defined.

(** Whatever the flags, [applyQuery] applies one order: the fee order when
    the fee flag is set, whatever the other flag. *)
Lemma applySorting_fees_first (s : Sorting.t) (l : list DoctorRecord) :
  Sorting.fees s = true -> applySorting s l = sort byFee l.
Proof. unfold applySorting. intros ->. reflexivity. Qed.

Lemma hasChar_app (c : ascii) (a b : string) : hasChar c (a ++ b) = hasChar c a || hasChar c b.
Proof.
  induction a as [|x a IH]; simpl; [reflexivity|].
  rewrite IH, orb_assoc. reflexivity.
Qed.

(** The printed form of a byte has neither [&] nor [=], and reads back as
    the byte. *)
Lemma encodeByte_plain (c : ascii) :
  hasChar "&" (URLSearchParams.encodeByte c) = false
  /\ hasChar "=" (URLSearchParams.encodeByte c) = false.
Proof. destruct c as [[] [] [] [] [] [] [] []]; split; reflexivity. Qed.

Lemma decode_encodeByte (c : ascii) (u : string) :
  URLSearchParams.decode (URLSearchParams.encodeByte c ++ u)
  = String c (URLSearchParams.decode u).
Proof. destruct c as [[] [] [] [] [] [] [] []]; reflexivity. Qed.

Lemma encode_plain (s : string) :
  hasChar "&" (URLSearchParams.encode s) = false
  /\ hasChar "=" (URLSearchParams.encode s) = false.
Proof.
  induction s as [|c s [IH1 IH2]]; simpl; [auto|].
  rewrite !hasChar_app, IH1, IH2.
  destruct (encodeByte_plain c) as [-> ->]. auto.
Qed.

Lemma decode_encode (s : string) :
  URLSearchParams.decode (URLSearchParams.encode s) = s.
Proof.
  induction s as [|c s IH]; [reflexivity|].
  simpl. rewrite decode_encodeByte, IH. reflexivity.
Qed.

Lemma cut_at (c : ascii) (a b : string) :
  hasChar c a = false -> URLSearchParams.cut (a ++ String c b) c = (a, b).
Proof.
  induction a as [|x a IH]; simpl.
  - rewrite Ascii.eqb_refl. reflexivity.
  - intros H. apply orb_false_iff in H as [Hx Ha].
    rewrite Hx, (IH Ha). reflexivity.
Qed.

Lemma split_whole (c : ascii) (a : string) :
  hasChar c a = false -> split a c = [a].
Proof.
  induction a as [|x a IH]; simpl; [reflexivity|].
  intros H. apply orb_false_iff in H as [Hx Ha].
  rewrite Hx, (IH Ha). reflexivity.
Qed.

Lemma split_at (c : ascii) (a b : string) :
  hasChar c a = false -> split (a ++ String c b) c = a :: split b c.
Proof.
  induction a as [|x a IH]; simpl.
  - rewrite Ascii.eqb_refl. reflexivity.
  - intros H. apply orb_false_iff in H as [Hx Ha].
    rewrite Hx, (IH Ha). reflexivity.
Qed.

Lemma piece_plain (e : string * string) : hasChar "&" (piece e) = false.
Proof.
  unfold piece. rewrite !hasChar_app.
  destruct (encode_plain (fst e)) as [-> _].
  destruct (encode_plain (snd e)) as [-> _]. reflexivity.
Qed.

Lemma piece_parsed (e : string * string) :
  (if truthy (piece e)
   then let (k, x) := URLSearchParams.cut (piece e) "=" in
        [(URLSearchParams.decode k, URLSearchParams.decode x)]
   else []) = [e].
Proof.
  unfold piece.
  assert (Ht : truthy (URLSearchParams.encode (fst e) ++ "="
                         ++ URLSearchParams.encode (snd e)) = true).
  { destruct (URLSearchParams.encode (fst e)); reflexivity. }
  rewrite Ht.
  change ("=" ++ URLSearchParams.encode (snd e))
    with (String "=" (URLSearchParams.encode (snd e))).
  rewrite cut_at by apply encode_plain.
  rewrite !decode_encode. destruct e; reflexivity.
Qed.

Lemma join_cons (sep x y : string) (r : list string) :
  URLSearchParams.join sep (x :: y :: r)
  = x ++ sep ++ URLSearchParams.join sep (y :: r).
Proof. reflexivity. Qed.

Lemma parse_cons (e : string * string) (b : string) :
  URLSearchParams.parse (piece e ++ String "&" b)
  = e :: URLSearchParams.parse b.
Proof.
  unfold URLSearchParams.parse.
  rewrite split_at by apply piece_plain.
  cbn [flat_map]. rewrite (piece_parsed e). reflexivity.
Qed.

(** Parsing what [toString] printed gives the pairs back. *)
Lemma parse_toString (p : URLSearchParams.t) :
  URLSearchParams.parse (URLSearchParams.toString p) = p.
Proof.
  unfold URLSearchParams.toString.
  induction p as [|e p IH]; [reflexivity|].
  destruct p as [|e' p].
  - cbn [map URLSearchParams.join]. fold (piece e).
    unfold URLSearchParams.parse.
    rewrite split_whole by apply piece_plain.
    cbn [flat_map]. rewrite (piece_parsed e). reflexivity.
  - cbn [map] in *. rewrite join_cons. fold (piece e).
    change ("&" ++ ?x) with (String "&" x).
    rewrite parse_cons, IH. reflexivity.
Qed.

Lemma ofString_locationSearch (p : URLSearchParams.t) :
  URLSearchParams.ofString (locationSearch (URLSearchParams.toString p)) = p.
Proof.
  unfold locationSearch.
  destruct (URLSearchParams.toString p) as [|a s] eqn:E.
  - rewrite <- (parse_toString p), E. reflexivity.
  - change (URLSearchParams.parse (String a s) = p).
    rewrite <- E. apply parse_toString.
Qed.

Lemma get_remove (p : URLSearchParams.t) (k k' : string) :
  (k =? k')%string = false ->
  URLSearchParams.get (URLSearchParams.remove p k) k' = URLSearchParams.get p k'.
Proof.
  intros Hk. induction p as [|[a x] p IH]; simpl; [reflexivity|].
  destruct (String.eqb_spec a k) as [->|Ha]; simpl.
  - rewrite Hk. exact IH.
  - rewrite IH. reflexivity.
Qed.

(** Reading after a conditional [set]. *)
Lemma get_setIf (b : bool) (p : URLSearchParams.t) (k x k' : string) :
  URLSearchParams.get (setIf b p k x) k'
  = if b && (k =? k')%string then Some x else URLSearchParams.get p k'.
Proof.
  unfold setIf. destruct b; simpl; [|reflexivity].
  induction p as [|[a y] p IH]; simpl.
  - reflexivity.
  - destruct (String.eqb_spec a k) as [->|Ha]; simpl.
    + destruct (k =? k')%string eqn:Hk; [reflexivity|].
      apply get_remove. exact Hk.
    + rewrite IH. destruct (String.eqb_spec a k') as [->|Ha'].
      * destruct (String.eqb_spec k k'); [congruence | reflexivity].
      * reflexivity.
Qed.

(** Whatever the criteria, provided the consultation type is not the empty
    string, the page reads back from the query string it wrote the criteria
    it wrote. *)
Lemma url_round_trip (c : Criteria) :
  consultationType c <> "" ->
  deserializeFromURL (locationSearch (serializeToURL c)) initialCriteria = c.
Proof.
  intros Hct. unfold deserializeFromURL, serializeToURL.
  rewrite ofString_locationSearch.
  destruct c as [[f1 f2 f3 f4 f5] ct [sf se] q]. simpl in Hct.
  unfold criteriaParams.
  cbn [filters consultationType sorting searchQuery Filters.entries fold_left
       fst snd Filters.ayurveda Filters.homeopath Filters.dentist
       Filters.physician Filters.gynecologist Sorting.fees Sorting.experience
       initialCriteria].
  rewrite !get_setIf. cbn.
  rewrite !andb_true_r, !andb_false_r.
  f_equal.
  - destruct f1, f2, f3, f4, f5; reflexivity.
  - destruct (String.eqb_spec ct "all") as [->|Hall]; [reflexivity|].
    destruct ct; [congruence | reflexivity].
  - destruct sf, se; reflexivity.
  - destruct q; reflexivity.
Qed.

(** C3.  The criteria with "dentist" active, the fee sort and the search
    text ["ann"] are written as the query string expected, and the default
    criteria as the empty one; the reading effect, given that query string
    and the initial criteria, gives the criteria back.  The page opened at
    that address does not: by the time the reading effect runs, the
    filtering effect has replaced the query, and the page has the initial
    criteria. *)
Theorem url_written_not_restored_on_load :
  serializeToURL dentistFeesAnn
  = "filter-specialty-dentist=true&sort-fees=true&search=ann"
  /\ serializeToURL initialCriteria = ""
  /\ criteria (readEffect
                 {| criteria := initialCriteria;
                    search := locationSearch (serializeToURL dentistFeesAnn) |})
     = dentistFeesAnn
  /\ criteria (mount (locationSearch (serializeToURL dentistFeesAnn)))
     = initialCriteria
  /\ initialCriteria <> dentistFeesAnn.
Proof.
  split; [vm_compute; reflexivity|].
  split; [reflexivity|].
  split; [apply url_round_trip; discriminate|].
  split; [reflexivity | discriminate].
Qed.

(** ** Loading *)

(** [s.split(' ')[0]] is the text of [s] before its first space. *)
Lemma split_firstWord (s : string) :
  nth_error (split s " ") 0 = Some (firstWord s).
Proof.
  induction s as [|c s IH]; simpl; [reflexivity|].
  destruct (Ascii.eqb c " "); [reflexivity|].
  destruct (split s " ") as [|w ws]; [discriminate IH|].
  simpl in IH. injection IH as ->. reflexivity.
Qed.

Lemma firstWord_WordOf (s : string) : WordOf (firstWord s) s.
Proof.
  induction s as [|c s IH]; simpl.
  - exists "". auto.
  - destruct (Ascii.eqb_spec c " ") as [->|Hc].
    + exists (String " " s). eauto.
    + destruct IH as (r & Hr & Hor). exists r. split; [|exact Hor].
      simpl. f_equal. exact Hr.
Qed.

Lemma isWhiteSpace2_space (c1 : ascii) : isWhiteSpace2 c1 " " = false.
Proof. unfold isWhiteSpace2. apply andb_false_r. Qed.

Lemma isWhiteSpace3_space_mid (c1 c3 : ascii) : isWhiteSpace3 c1 " " c3 = false.
Proof.
  unfold isWhiteSpace3. change (code " ") with 32%N. cbn.
  rewrite !andb_false_r. reflexivity.
Qed.

Lemma isWhiteSpace3_space_end (c1 c2 : ascii) : isWhiteSpace3 c1 c2 " " = false.
Proof.
  unfold isWhiteSpace3. change (code " ") with 32%N. cbn.
  rewrite !andb_false_r. reflexivity.
Qed.

Lemma trimStart_WordOf_upto (n : nat) (t s : string) :
  (String.length t <= n)%nat ->
  WordOf t s -> trimStart t <> "" -> WordOf (trimStart t) (trimStart s).
Proof.
  revert t s. induction n as [|n IH]; intros t s Hlen (r & -> & Hr) Hne.
  - destruct t; [contradiction Hne; reflexivity | simpl in Hlen; lia].
  - destruct t as [|c1 t1]; [contradiction Hne; reflexivity|].
    cbn [trimStart append] in *. simpl in Hlen.
    destruct (isWhiteSpace c1).
    { apply IH; [lia | exists r; auto | exact Hne]. }
    destruct t1 as [|c2 t2]; cbn [append] in *.
    + destruct Hr as [->|(r' & ->)].
      * exists "". auto.
      * rewrite isWhiteSpace2_space.
        destruct r' as [|c3 r3]; [|rewrite isWhiteSpace3_space_mid];
          eexists; split; [reflexivity | eauto | reflexivity | eauto].
    + simpl in Hlen. destruct (isWhiteSpace2 c1 c2).
      { apply IH; [lia | exists r; auto | exact Hne]. }
      destruct t2 as [|c3 t3]; cbn [append] in *.
      * destruct Hr as [->|(r' & ->)].
        -- exists "". auto.
        -- rewrite isWhiteSpace3_space_end. eexists. split; [reflexivity | eauto].
      * simpl in Hlen. destruct (isWhiteSpace3 c1 c2 c3).
        { apply IH; [lia | exists r; auto | exact Hne]. }
        exists r. auto.
Qed.

Lemma trimStart_WordOf (t s : string) :
  WordOf t s -> trimStart t <> "" -> WordOf (trimStart t) (trimStart s).
Proof. apply (trimStart_WordOf_upto (String.length t)). lia. Qed.

Lemma readSign_WordOf (t s : string) :
  WordOf t s -> snd (readSign t) <> "" ->
  fst (readSign s) = fst (readSign t)
  /\ WordOf (snd (readSign t)) (snd (readSign s)).
Proof.
  intros (r & -> & Hr). destruct t as [|c t]; simpl; [congruence|].
  destruct (Ascii.eqb c "-"); [|destruct (Ascii.eqb c "+")]; simpl;
    intros _; (split; [reflexivity | exists r; auto]).
Qed.

Lemma readRadix_WordOf (t s : string) :
  WordOf t s -> snd (readRadix t) <> "" ->
  fst (readRadix s) = fst (readRadix t)
  /\ WordOf (snd (readRadix t)) (snd (readRadix s)).
Proof.
  intros (r & -> & Hr). destruct t as [|c [|x t]]; simpl.
  - congruence.
  - intros _. destruct Hr as [->|(r' & ->)]; simpl.
    + split; [reflexivity | exists ""; auto].
    + rewrite andb_false_r. simpl.
      split; [reflexivity | exists (String " " r'); eauto].
  - destruct (Ascii.eqb c "0" && (Ascii.eqb x "x" || Ascii.eqb x "X")); simpl;
      intros _; (split; [reflexivity | exists r; auto]).
Qed.

Lemma readDigits_started (radix : Z) (s : string) (a : Z) :
  readDigits radix s (Some a) <> None.
Proof.
  revert a. induction s as [|c s IH]; intros a; simpl; [congruence|].
  destruct (digitValue radix c); [apply IH | congruence].
Qed.

Lemma readDigits_WordOf (radix : Z) (t s : string) :
  WordOf t s -> readDigits radix s None = None -> readDigits radix t None = None.
Proof.
  intros (r & -> & _). destruct t as [|c t]; simpl; [reflexivity|].
  destruct (digitValue radix c); [|reflexivity].
  intros H. apply readDigits_started in H. destruct H.
Qed.

(** A string without a leading integer has a first word without one. *)
Lemma parseIntStr_firstWord (s : string) :
  parseIntStr s = None -> parseIntStr (firstWord s) = None.
Proof.
  pose proof (firstWord_WordOf s) as W0.
  unfold parseIntStr.
  destruct (string_dec (trimStart (firstWord s)) "") as [E1|E1];
    [rewrite E1; reflexivity|].
  pose proof (trimStart_WordOf _ _ W0 E1) as W1.
  destruct (string_dec (snd (readSign (trimStart (firstWord s)))) "")
    as [E2|E2].
  { destruct (readSign (trimStart (firstWord s))) as [sg u]. simpl in E2.
    subst u. reflexivity. }
  destruct (readSign_WordOf _ _ W1 E2) as [Hsg W2].
  destruct (readSign (trimStart (firstWord s))) as [sg u].
  destruct (readSign (trimStart s)) as [sg' u']. simpl in *. subst sg'.
  destruct (string_dec (snd (readRadix u)) "") as [E3|E3].
  { destruct (readRadix u) as [rd w]. simpl in E3. subst w. reflexivity. }
  destruct (readRadix_WordOf _ _ W2 E3) as [Hrd W3].
  destruct (readRadix u) as [rd w]. destruct (readRadix u') as [rd' w'].
  simpl in *. subst rd'.
  destruct (readDigits rd w' None) eqn:Hs; [discriminate|].
  intros _. rewrite (readDigits_WordOf rd w w' W3 Hs). reflexivity.
Qed.

Example transform_wellFormedItem :
  transform Rich wellFormedItem
  = Ok {| id := "8"; name := "Ravi Kumar"; specialty := "Dentist";
          experience := 13; location := "Kondapur"; address := "Smile Clinic";
          fee := 500; image := "https://via.placeholder.com/80";
          languages := ["English"; "Hindi"]; videoConsult := true;
          inClinic := false |}.
Proof. vm_compute. reflexivity. Qed.

(** C8, as stated, fails: an item with a malformed experience and no fees
    that also has no specialities makes the mapping throw. *)
Lemma transform_throws_without_specialities :
  ~ (forall v doctor e,
       Payload.experience doctor = Some e -> parseIntStr e = None ->
       Payload.fees doctor = None ->
       exists r, transform v doctor = Ok r /\ experience r = 0 /\ fee r = 0).
Proof.
  intros H.
  destruct (H Rich (withSpecialities None malformedItem) "not a number"
              eq_refl eq_refl eq_refl) as (r & Hr & _).
  vm_compute in Hr. discriminate Hr.
Qed.

(** C8, amended.  For every payload item that has a specialities field,
    whose experience is a string without a leading integer (such as
    ["not a number"]) and whose fees are absent, the mapping of [load]
    returns a record, with experience 0 and fee 0. *)
Theorem transform_defaults_numbers (v : Revision) (doctor : Payload.t)
  (sps : list Speciality.t) (e : string)
  (Hsps : Payload.specialities doctor = Some sps)
  (Hexp : Payload.experience doctor = Some e)
  (Hnan : parseIntStr e = None)
  (Hfees : Payload.fees doctor = None) :
  exists r, transform v doctor = Ok r /\ experience r = 0 /\ fee r = 0.
Proof.
  unfold transform, firstSpecialityName. rewrite Hsps. cbn [bind].
  eexists. split; [reflexivity|]. cbn [experience fee].
  rewrite Hexp, Hfees. cbn [chain].
  split; [|reflexivity].
  rewrite split_firstWord. unfold parseInt, toString. cbn [orElse].
  rewrite (parseIntStr_firstWord e Hnan). reflexivity.
Qed.

Lemma transform_defaults_numbers_witness :
  exists r, transform Rich malformedItem = Ok r
            /\ experience r = 0 /\ fee r = 0.
Proof.
  apply (transform_defaults_numbers Rich malformedItem [] "not a number");
    reflexivity.
Defined.

(** The mapping throws nothing but a [TypeError]. *)
Lemma transform_Throw (v : Revision) (doctor : Payload.t) (e : exn) :
  transform v doctor = Throw e -> e = TypeError.
Proof.
  unfold transform, firstSpecialityName.
  destruct (Payload.specialities doctor); simpl; congruence.
Qed.

Lemma mapM_transform_Throw (v : Revision) (before after : list Payload.t)
  (doctor : Payload.t) :
  transform v doctor = Throw TypeError ->
  mapM (transform v) (before ++ doctor :: after) = Throw TypeError.
Proof.
  intros Hd. induction before as [|x before IH]; simpl.
  - rewrite Hd. reflexivity.
  - destruct (transform v x) as [y|e] eqn:Hx; simpl.
    + rewrite IH. reflexivity.
    + rewrite (transform_Throw v x e Hx). reflexivity.
Qed.

(** The state a failed load leaves. *)
Lemma fetchDoctors_failure (v : Revision) (r : Response) (st : State) (e : exn) :
  transformedData v r = Throw e ->
  fetchDoctors v r st
  = {| doctors := []; filteredDoctors := []; isLoading := false;
       console := console st ++ [e]; requests := S (requests st) |}.
Proof.
  intros He. unfold fetchDoctors, fetchSettle. rewrite He. reflexivity.
Qed.

(** C9.  When the load fails, whatever the cause, the raw list and the
    derived list are both empty and the loading flag is down; one request
    was made and none follows; the state is the one a successful load of an
    empty array leaves, but for the logged error, and the page shows that
    no doctor was found; running the filtering effect again leaves the
    derived list empty. *)
Theorem fetchDoctors_failure_clears (v : Revision) (r : Response) (st : State)
  (e : exn) (Hfail : transformedData v r = Throw e) :
  doctors (fetchDoctors v r st) = []
  /\ filteredDoctors (fetchDoctors v r st) = []
  /\ isLoading (fetchDoctors v r st) = false
  /\ requests (fetchDoctors v r st) = S (requests st)
  /\ fetchDoctors v r st = consoleError e (fetchDoctors v (JsonArray []) st)
  /\ render (fetchDoctors v r st) = NoDoctorsFound
  /\ forall c, applyEffect v c (fetchDoctors v r st) = fetchDoctors v r st.
Proof.
  rewrite (fetchDoctors_failure v r st e Hfail).
  repeat split.
  intros c. unfold applyEffect. simpl. rewrite applyQuery_nil. reflexivity.
Qed.

Lemma fetchDoctors_failure_clears_witness :
  doctors (fetchDoctors Rich FetchRejected initialState) = []
  /\ filteredDoctors (fetchDoctors Rich FetchRejected initialState) = []
  /\ isLoading (fetchDoctors Rich FetchRejected initialState) = false
  /\ requests (fetchDoctors Rich FetchRejected initialState)
     = S (requests initialState)
  /\ fetchDoctors Rich FetchRejected initialState
     = consoleError NetworkError
         (fetchDoctors Rich (JsonArray []) initialState)
  /\ render (fetchDoctors Rich FetchRejected initialState) = NoDoctorsFound
  /\ forall c, applyEffect Rich c (fetchDoctors Rich FetchRejected initialState)
               = fetchDoctors Rich FetchRejected initialState.
Proof.
  apply (fetchDoctors_failure_clears Rich FetchRejected initialState NetworkError).
  reflexivity.
Defined.

(** Each kind of failure is one: the request, the decoding, the shape. *)
Example failures (v : Revision) :
  transformedData v FetchRejected = Throw NetworkError
  /\ transformedData v BodyNotJson = Throw SyntaxError
  /\ transformedData v JsonNotArray = Throw TypeError
  /\ transformedData v
       (JsonArray [wellFormedItem; withSpecialities None malformedItem])
     = Throw TypeError.
Proof. repeat split. Qed.

(** While the request is pending the page shows the spinner. *)
Example pending_shows_spinner : render (fetchStart initialState) = Spinner.
Proof. reflexivity. Qed.

(** C10.  An item without a specialities field makes the mapping throw;
    with such an item anywhere in the payload the whole mapping throws, the
    error reaches the handler and is logged, and the raw list and the
    derived list are set to empty, whatever the other items are.  The same
    item with an empty specialities array is mapped to a record with an
    empty specialty. *)
Theorem missing_specialities_empties_list (v : Revision)
  (before after : list Payload.t) (doctor : Payload.t) (st : State) :
  let bad := withSpecialities None doctor in
  let st' := fetchDoctors v (JsonArray (before ++ bad :: after)) st in
  transform v bad = Throw TypeError
  /\ transformedData v (JsonArray (before ++ bad :: after)) = Throw TypeError
  /\ doctors st' = []
  /\ filteredDoctors st' = []
  /\ console st' = (console st ++ [TypeError])%list
  /\ isLoading st' = false
  /\ exists r, transform v (withSpecialities (Some []) doctor) = Ok r
               /\ specialty r = "".
Proof.
  intros bad st'.
  assert (Hbad : transform v bad = Throw TypeError) by reflexivity.
  assert (Hall : transformedData v (JsonArray (before ++ bad :: after))
                 = Throw TypeError).
  { simpl. apply mapM_transform_Throw. exact Hbad. }
  subst st'. rewrite (fetchDoctors_failure _ _ st _ Hall). simpl.
  repeat split; try assumption.
  eexists. split; reflexivity.
Qed.

(** One item without specialities among well-formed ones: nothing is kept,
    where the well-formed ones alone give two records. *)
Example one_bad_item_discards_all :
  doctors (fetchDoctors Rich
             (JsonArray [wellFormedItem; withSpecialities None wellFormedItem;
                         malformedItem])
             initialState) = []
  /\ List.length (doctors (fetchDoctors Rich
                             (JsonArray [wellFormedItem; malformedItem])
                             initialState)) = 2%nat.
Proof. split; vm_compute; reflexivity. Qed.

(** * Further properties *)

(** ** The sort and the filters together *)

Section SortOrder.
Context {A : Type} (cmp : A -> A -> Z).
Hypothesis cmp_total : forall x y, 0 < cmp x y -> cmp y x <= 0.
Hypothesis cmp_trans : forall x y z, cmp x y <= 0 -> cmp y z <= 0 -> cmp x z <= 0.

Lemma sort_of_Sorted (l : list A) :
  Sorted (fun a b => cmp a b <= 0) l -> sort cmp l = l.
Proof.
  intros Hs. induction Hs as [|x l Hl IH Hx]; simpl; [reflexivity|].
  fold (sort cmp l). rewrite IH.
  destruct Hx as [|y l Hxy]; simpl; [reflexivity|].
  apply Z.leb_le in Hxy. rewrite Hxy. reflexivity.
Qed.

Lemma insert_head (x : A) (l : list A) :
  Forall (fun y => cmp x y <= 0) l -> insert cmp x l = x :: l.
Proof.
  intros Hall. destruct Hall as [|y l Hy _]; simpl; [reflexivity|].
  apply Z.leb_le in Hy. rewrite Hy. reflexivity.
Qed.

Lemma insert_filter_comm (p : A -> bool) (x : A) (l : list A) :
  StronglySorted (fun a b => cmp a b <= 0) l ->
  filter p (insert cmp x l)
  = if p x then insert cmp x (filter p l) else filter p l.
Proof.
  intros Hs. induction Hs as [|y l Hl IH Hy]; simpl.
  - destruct (p x); reflexivity.
  - destruct (Z.leb_spec (cmp x y) 0) as [Hxy|Hxy]; simpl.
    + destruct (p x); [|reflexivity].
      symmetry. apply (insert_head x (filter p (y :: l))).
      apply Forall_forall. intros z Hz. apply filter_In in Hz as [Hz _].
      destruct Hz as [<-|Hz]; [exact Hxy|].
      rewrite Forall_forall in Hy. eapply cmp_trans; [exact Hxy | auto].
    + rewrite IH. destruct (p y), (p x); simpl; try reflexivity.
      apply Z.leb_gt in Hxy. rewrite Hxy. reflexivity.
Qed.

Lemma sort_StronglySorted (l : list A) :
  StronglySorted (fun a b => cmp a b <= 0) (sort cmp l).
Proof.
  apply Sorted_StronglySorted.
  - intros x y z. apply cmp_trans.
  - apply sort_Sorted. exact cmp_total.
Qed.

Lemma filter_sort_comm (p : A -> bool) (l : list A) :
  filter p (sort cmp l) = sort cmp (filter p l).
Proof.
  induction l as [|x l IH]; simpl; [reflexivity|].
  fold (sort cmp l). rewrite insert_filter_comm by apply sort_StronglySorted.
  rewrite IH. destruct (p x); reflexivity.
Qed.
End SortOrder.

Lemma byFee_total (x y : DoctorRecord) : 0 < byFee x y -> byFee y x <= 0.
Proof. unfold byFee. lia. Qed.
Lemma byFee_trans (x y z : DoctorRecord) :
  byFee x y <= 0 -> byFee y z <= 0 -> byFee x z <= 0.
Proof. unfold byFee. lia. Qed.
Lemma byExperience_total (x y : DoctorRecord) :
  0 < byExperience x y -> byExperience y x <= 0.
Proof. unfold byExperience. lia. Qed.
Lemma byExperience_trans (x y z : DoctorRecord) :
  byExperience x y <= 0 -> byExperience y z <= 0 -> byExperience x z <= 0.
Proof. unfold byExperience. lia. Qed.

Lemma applySorting_filter (s : Sorting.t) (p : DoctorRecord -> bool)
  (l : list DoctorRecord) :
  filter p (applySorting s l) = applySorting s (filter p l).
Proof.
  unfold applySorting.
  destruct (Sorting.fees s);
    [apply filter_sort_comm; [apply byFee_total | apply byFee_trans]|].
  destruct (Sorting.experience s);
    [apply filter_sort_comm; [apply byExperience_total | apply byExperience_trans]|].
  reflexivity.
Qed.

Lemma applySorting_twice (s : Sorting.t) (l : list DoctorRecord) :
  applySorting s (applySorting s l) = applySorting s l.
Proof.
  unfold applySorting.
  destruct (Sorting.fees s);
    [apply sort_of_Sorted, sort_Sorted, byFee_total|].
  destruct (Sorting.experience s);
    [apply sort_of_Sorted, sort_Sorted, byExperience_total|].
  reflexivity.
Qed.

Lemma filter_same {A} (p : A -> bool) (l : list A) :
  filter p (filter p l) = filter p l.
Proof.
  rewrite filter_twice. apply filter_ext. intros x. apply andb_diag.
Qed.

(** X1.  Sorting the raw list first and filtering afterwards gives the list
    [applyQuery] returns: the sort step and the filters commute. *)
Theorem applyQuery_sort_then_filter (v : Revision) (L : list DoctorRecord)
  (c : Criteria) :
  applyQuery v L c = filter (passes v c) (applySorting (sorting c) L).
Proof. rewrite applyQuery_unfold, applySorting_filter. reflexivity. Qed.

(** X2.  Running [applyQuery] on its own output, under the same criteria,
    changes nothing. *)
Theorem applyQuery_idempotent (v : Revision) (L : list DoctorRecord)
  (c : Criteria) :
  applyQuery v (applyQuery v L c) c = applyQuery v L c.
Proof.
  rewrite !applyQuery_unfold, applySorting_filter, filter_same.
  apply applySorting_twice.
Qed.

(** X3.  The three filters can be applied in any order: the list is the
    same. *)
Theorem filters_commute (v : Revision) (f : Filters.t) (mode q : string)
  (l : list DoctorRecord) :
  searchFilter v q (consultationFilter mode (specialtyFilter f l))
  = specialtyFilter f (consultationFilter mode (searchFilter v q l))
  /\ searchFilter v q (consultationFilter mode (specialtyFilter f l))
     = consultationFilter mode (specialtyFilter f (searchFilter v q l))
  /\ searchFilter v q (consultationFilter mode (specialtyFilter f l))
     = consultationFilter mode (searchFilter v q (specialtyFilter f l)).
Proof.
  rewrite !specialtyFilter_filter, !consultationFilter_filter,
    !searchFilter_filter, !filter_twice.
  repeat split; apply filter_ext; intros d;
    destruct (specialtyPredicate f d), (modePredicate mode d),
      (searchPredicate v q d); reflexivity.
Qed.

(** Dropping elements keeps keys distinct. *)
Lemma filter_keeps_distinct {R K : Type} (key : R -> K) (keep : R -> bool)
  (rs : list R) (Hnd : NoDup (map key rs)) :
  NoDup (map key (filter keep rs)).
Proof.
  revert Hnd. induction rs as [|r rs IH]; cbn; [intros; constructor|].
  rewrite NoDup_cons_iff. intros [Hfresh Hrest].
  destruct (keep r); cbn; [|exact (IH Hrest)].
  apply NoDup_cons; [|exact (IH Hrest)].
  contradict Hfresh. apply in_map_iff in Hfresh as (r' & Hkey & Hin).
  apply filter_In in Hin. apply in_map_iff. exists r'. tauto.
Qed.

(** X4.  When the raw list has no two records with the same id, neither has
    the output of [applyQuery]: the keys of the rendered cards stay distinct. *)
Theorem applyQuery_keeps_ids_distinct (v : Revision) (L : list DoctorRecord)
  (c : Criteria) (Hids : NoDup (map id L)) :
  NoDup (map id (applyQuery v L c)).
Proof.
  rewrite applyQuery_unfold.
  eapply Permutation_NoDup.
  - apply Permutation_map. symmetry. apply applySorting_Permutation.
  - apply filter_keeps_distinct. exact Hids.
Qed.

Lemma applyQuery_keeps_ids_distinct_witness :
  NoDup (map id (applyQuery Rich sampleDoctors sortedByFees)).
Proof.
  apply (applyQuery_keeps_ids_distinct Rich sampleDoctors sortedByFees).
  repeat constructor; simpl; intuition discriminate.
Defined.

(** X5.  When the experience sort is the one applied, the records of any one
    experience stand in the output in the order they had before the sort. *)
Theorem applyQuery_experience_stable (v : Revision) (L : list DoctorRecord)
  (c : Criteria) (Hfees : Sorting.fees (sorting c) = false)
  (Hexp : Sorting.experience (sorting c) = true) (k : Z) :
  withExperience k (applyQuery v L c) = withExperience k (filter (passes v c) L).
Proof.
  rewrite applyQuery_unfold. unfold applySorting. rewrite Hfees, Hexp.
  unfold withExperience. apply sort_filter.
  intros x y Hx Hy. unfold byExperience. lia.
Qed.

Lemma applyQuery_experience_stable_witness :
  withExperience 12 (applyQuery Rich sampleDoctors sortedByExperience)
  = withExperience 12 (filter (passes Rich sortedByExperience) sampleDoctors).
Proof.
  apply (applyQuery_experience_stable Rich sampleDoctors sortedByExperience);
    reflexivity.
Defined.

(** ** Searching and the consultation mode *)

Lemma filter_Subsequence_impl {A} (p q : A -> bool) (l : list A) :
  (forall x, p x = true -> q x = true) ->
  Subsequence (filter p l) (filter q l).
Proof.
  intros Hpq. induction l as [|x l IH]; simpl; [constructor|].
  destruct (p x) eqn:Hp.
  - rewrite (Hpq x Hp). apply sub_keep. exact IH.
  - destruct (q x); [apply sub_skip|]; exact IH.
Qed.

Lemma append_assoc (a b c : string) : (a ++ b) ++ c = a ++ b ++ c.
Proof. induction a as [|x a IH]; simpl; [reflexivity|]. rewrite IH. reflexivity. Qed.

Lemma toLowerCase_app (a b : string) :
  toLowerCase (a ++ b) = toLowerCase a ++ toLowerCase b.
Proof. induction a as [|x a IH]; simpl; [reflexivity|]. rewrite IH. reflexivity. Qed.

Lemma lowerChar_twice (c : ascii) : lowerChar (lowerChar c) = lowerChar c.
Proof. destruct c as [[] [] [] [] [] [] [] []]; reflexivity. Qed.

Lemma toLowerCase_twice (s : string) : toLowerCase (toLowerCase s) = toLowerCase s.
Proof.
  induction s as [|c s IH]; simpl; [reflexivity|].
  rewrite lowerChar_twice, IH. reflexivity.
Qed.

Lemma occursIn_prefix (q m s : string) : occursIn (q ++ m) s -> occursIn q s.
Proof.
  intros (a & b & ->). exists a, (m ++ b). rewrite append_assoc. reflexivity.
Qed.

Lemma includes_prefix (s q m : string) :
  includes s (q ++ m) = true -> includes s q = true.
Proof. rewrite !includes_occursIn. apply occursIn_prefix. Qed.

Lemma searchPredicate_prefix (v : Revision) (q m : string) (d : DoctorRecord) :
  searchPredicate v (q ++ m) d = true -> searchPredicate v q d = true.
Proof.
  destruct q as [|c q]; [reflexivity|].
  unfold searchPredicate. cbn [append].
  change (String c (q ++ m)) with (String c q ++ m).
  rewrite toLowerCase_app, !orb_true_iff.
  intros [H|H]; [left; eapply includes_prefix; exact H|].
  right. destruct v; [eapply includes_prefix; exact H | discriminate].
Qed.

(** X6.  Typing more characters after a search text made of ASCII
    characters never brings a record back: the list under the longer text is
    a subsequence of the list under the shorter one. *)
Theorem search_narrows_as_typed (v : Revision) (q more : string)
  (l : list DoctorRecord) (Hascii : isAscii q = true) :
  Subsequence (searchFilter v (q ++ more) l) (searchFilter v q l).
Proof.
  rewrite !searchFilter_filter. apply filter_Subsequence_impl.
  intros d. apply searchPredicate_prefix.
Qed.

Lemma search_narrows_as_typed_witness :
  Subsequence (searchFilter Rich ("an" ++ "n") sampleDoctors)
              (searchFilter Rich "an" sampleDoctors).
Proof.
  apply (search_narrows_as_typed Rich "an" "n" sampleDoctors). reflexivity.
Defined.

(** X7.  The case of the search text does not matter: the text and its
    lower-cased form select the same list. *)
Theorem search_ignores_query_case (v : Revision) (q : string)
  (l : list DoctorRecord) :
  searchFilter v (toLowerCase q) l = searchFilter v q l.
Proof.
  unfold searchFilter. rewrite toLowerCase_twice.
  destruct q; reflexivity.
Qed.

(** X8.  What the earlier revision's search keeps, the search of
    [src/App.jsx] keeps too. *)
Theorem basic_search_within_rich (q : string) (l : list DoctorRecord) :
  Subsequence (searchFilter Basic q l) (searchFilter Rich q l).
Proof.
  rewrite !searchFilter_filter. apply filter_Subsequence_impl.
  intros d. unfold searchPredicate. destruct q; [reflexivity|].
  rewrite orb_false_r. intros ->. reflexivity.
Qed.

(** X9.  The consultation filter keeps, under "video", exactly the records
    with video consultation and, under "clinic", exactly those with a
    clinic; under any other mode, such as one read from the address, it
    keeps every record. *)
Theorem consultationFilter_modes (mode : string) (l : list DoctorRecord)
  (d : DoctorRecord) (Hv : mode <> "video") (Hc : mode <> "clinic") :
  (In d (consultationFilter "video" l) <-> In d l /\ videoConsult d = true)
  /\ (In d (consultationFilter "clinic" l) <-> In d l /\ inClinic d = true)
  /\ consultationFilter mode l = l.
Proof.
  split; [|split].
  - unfold consultationFilter. simpl. apply filter_In.
  - unfold consultationFilter. simpl. apply filter_In.
  - rewrite consultationFilter_filter. apply filter_all. intros x.
    unfold modePredicate.
    apply String.eqb_neq in Hv, Hc. rewrite Hv, Hc. reflexivity.
Qed.

Lemma consultationFilter_modes_witness :
  consultationFilter "phone" sampleDoctors = sampleDoctors.
Proof.
  apply (consultationFilter_modes "phone" sampleDoctors
           (sampleDoctor "1" "Anna Smith" "Dentist" 12 500 true false));
    discriminate.
Defined.

(** X10.  Under the initial criteria [applyQuery] returns the raw list as it
    is; "clear all" leads back there from any criteria, with an empty query
    string; and the list a load leaves is the one the filtering effect
    computes under the initial criteria. *)
Theorem default_criteria_show_all (v : Revision) (L : list DoctorRecord)
  (c : Criteria) (r : Response) (st : State) :
  applyQuery v L initialCriteria = L
  /\ applyQuery v L (clearAllFilters c) = L
  /\ serializeToURL (clearAllFilters c) = ""
  /\ applyEffect v initialCriteria (fetchDoctors v r st) = fetchDoctors v r st.
Proof.
  repeat split.
  unfold applyEffect, fetchDoctors, fetchSettle.
  destruct (transformedData v r); reflexivity.
Qed.

(** ** The query string, in general *)

Lemma criteriaParams_unfold (c : Criteria) :
  criteriaParams c
  = setIf (truthy (searchQuery c))
      (setIf (Sorting.experience (sorting c))
         (setIf (Sorting.fees (sorting c))
            (setIf (negb (consultationType c =? "all")%string)
               (setIf (Filters.gynecologist (filters c))
                  (setIf (Filters.physician (filters c))
                     (setIf (Filters.dentist (filters c))
                        (setIf (Filters.homeopath (filters c))
                           (setIf (Filters.ayurveda (filters c))
                              URLSearchParams.empty
                              "filter-specialty-ayurveda" "true")
                           "filter-specialty-homeopath" "true")
                        "filter-specialty-dentist" "true")
                     "filter-specialty-physician" "true")
                  "filter-specialty-gynecologist" "true")
               "consultation-type" (consultationType c))
            "sort-fees" "true")
         "sort-experience" "true")
      "search" (searchQuery c).
Proof. reflexivity. Qed.

(** X11.  Whatever address the page is opened at, it comes up with the
    initial criteria and rewrites the address with an empty query: the
    filtering effect, declared first, has replaced the query when the
    reading effect looks at it.  In particular the page opened at the address
    written for some criteria does not come up with those criteria. *)
Theorem page_opened_ignores_address (search0 : string) (c : Criteria) :
  criteria (mount search0) = initialCriteria
  /\ search (mount search0) = ""
  /\ criteria (mount (locationSearch (serializeToURL c))) = initialCriteria
  /\ search (readEffect (writeEffect
               {| criteria := initialCriteria; search := search0 |})) = "".
Proof. repeat split. Qed.

(** X12.  Criteria read from any address are written and read back
    unchanged. *)
Theorem url_read_is_stable (search : string) :
  let c := deserializeFromURL search initialCriteria in
  deserializeFromURL (locationSearch (serializeToURL c)) initialCriteria = c.
Proof.
  intros c. apply url_round_trip. subst c. simpl.
  destruct (URLSearchParams.get (URLSearchParams.ofString search)
              "consultation-type") as [[|a t]|]; simpl; discriminate.
Qed.

Lemma remove_names (p : URLSearchParams.t) (k k' : string) :
  In k' (map fst (URLSearchParams.remove p k)) ->
  k' <> k /\ In k' (map fst p).
Proof.
  unfold URLSearchParams.remove. intros Hin.
  apply in_map_iff in Hin as ([a x] & <- & Hin).
  apply filter_In in Hin as [Hin Hne]. simpl in *.
  apply negb_true_iff, String.eqb_neq in Hne.
  split; [exact Hne|]. apply in_map_iff. exists (a, x). auto.
Qed.

Lemma set_names (p : URLSearchParams.t) (k x k' : string) :
  In k' (map fst (URLSearchParams.set p k x)) -> k' = k \/ In k' (map fst p).
Proof.
  induction p as [|[a y] p IH]; simpl.
  - intros [<-|[]]. auto.
  - destruct (String.eqb_spec a k) as [->|Ha]; simpl.
    + intros [<-|Hin]; [auto|]. apply remove_names in Hin. tauto.
    + intros [<-|Hin]; [auto|]. apply IH in Hin. tauto.
Qed.

Lemma set_NoDup (p : URLSearchParams.t) (k x : string) :
  NoDup (map fst p) -> NoDup (map fst (URLSearchParams.set p k x)).
Proof.
  induction p as [|[a y] p IH]; simpl; intros Hnd.
  - repeat constructor. intros [].
  - inversion Hnd as [|? ? Ha Hp]; subst.
    destruct (String.eqb_spec a k) as [->|Hne]; simpl.
    + constructor.
      * intros Hin. apply remove_names in Hin. tauto.
      * unfold URLSearchParams.remove. apply filter_keeps_distinct. exact Hp.
    + constructor; [|auto].
      intros Hin. apply set_names in Hin as [->|Hin]; tauto.
Qed.

Lemma setIf_NoDup (b : bool) (p : URLSearchParams.t) (k x : string) :
  NoDup (map fst p) -> NoDup (map fst (setIf b p k x)).
Proof. destruct b; simpl; [apply set_NoDup | auto]. Qed.

(** X13.  The parameters written for any criteria carry each name at most
    once, and a name is there exactly when its criterion is not at its
    default: a specialty marker per active key, the consultation type when
    it is not "all", a marker per set sort flag, the search text when it is
    not empty. *)
Theorem serializer_writes_non_defaults_once (c : Criteria) (k : SpecialtyKey) :
  let params := criteriaParams c in
  NoDup (map fst params)
  /\ URLSearchParams.get params ("filter-specialty-" ++ keyName k)
     = (if flagOf (filters c) k then Some "true" else None)
  /\ URLSearchParams.get params "consultation-type"
     = (if (consultationType c =? "all")%string then None
        else Some (consultationType c))
  /\ URLSearchParams.get params "sort-fees"
     = (if Sorting.fees (sorting c) then Some "true" else None)
  /\ URLSearchParams.get params "sort-experience"
     = (if Sorting.experience (sorting c) then Some "true" else None)
  /\ URLSearchParams.get params "search"
     = (if truthy (searchQuery c) then Some (searchQuery c) else None).
Proof.
  intros params. subst params. rewrite criteriaParams_unfold.
  split.
  { repeat apply setIf_NoDup. constructor. }
  rewrite !get_setIf.
  repeat split.
  - destruct k; cbn; rewrite ?andb_true_r, ?andb_false_r; reflexivity.
  - cbn. rewrite ?andb_true_r, ?andb_false_r.
    destruct (consultationType c =? "all")%string; reflexivity.
  - cbn. rewrite ?andb_true_r, ?andb_false_r. reflexivity.
  - cbn. rewrite ?andb_true_r, ?andb_false_r. reflexivity.
  - cbn. rewrite ?andb_true_r, ?andb_false_r. reflexivity.
Qed.

(** ** The handlers *)

Lemma active_flag (f : Filters.t) (k : SpecialtyKey) :
  In (keyName k) (activeSpecialtyFilters f) <-> flagOf f k = true.
Proof.
  rewrite activeSpecialtyFilters_entries.
  destruct f as [f1 f2 f3 f4 f5].
  destruct k; simpl; split;
    try (intros ->; auto 10);
    intros H; repeat (destruct H as [H|H]; [congruence|]); destruct H.
Qed.

(** X15.  After [handleFilterChange] on a key, that key is active exactly
    when the value given is true, every other key is active exactly when it
    was before, and the other criteria are as they were. *)
Theorem handleFilterChange_sets_one_key (k k' : SpecialtyKey) (value : bool)
  (c : Criteria) :
  let c' := handleFilterChange k value c in
  (In (keyName k') (activeSpecialtyFilters (filters c')) <->
     (k' = k /\ value = true)
     \/ (k' <> k /\ In (keyName k') (activeSpecialtyFilters (filters c))))
  /\ consultationType c' = consultationType c
  /\ sorting c' = sorting c
  /\ searchQuery c' = searchQuery c.
Proof.
  intros c'. split; [|auto].
  rewrite !active_flag. subst c'. simpl.
  destruct k, k'; simpl; intuition congruence.
Qed.

(** ** Loading, in general *)

Lemma to_uint_nonnil (n : nat) : Nat.to_uint n <> Decimal.Nil.
Proof.
  intros H. pose proof (Unsigned.of_to n) as Hn. rewrite H in Hn.
  cbv in Hn. subst n. discriminate H.
Qed.

Lemma readDigits_step (c : ascii) (r : string) (acc : option Z) (k : Z) :
  digitValue 10 c = Some k ->
  readDigits 10 (String c r) acc = readDigits 10 r (Some (10 * orElse acc 0 + k)).
Proof. intros H. simpl. rewrite H. reflexivity. Qed.

Lemma readDigits_decimal (d : Decimal.uint) (a : nat) :
  readDigits 10 (NilEmpty.string_of_uint d) (Some (Z.of_nat a))
  = Some (Z.of_nat (Nat.of_uint_acc d a)).
Proof.
  revert a. induction d; intros a; [reflexivity|..];
    cbn [NilEmpty.string_of_uint Nat.of_uint_acc];
    erewrite readDigits_step by reflexivity;
    rewrite <- IHd; do 2 f_equal; cbn [orElse];
    rewrite Nat.tail_mul_spec; digit_value; lia.
Qed.

Lemma readDigits_decimal_start (d : Decimal.uint) :
  d <> Decimal.Nil ->
  readDigits 10 (NilEmpty.string_of_uint d) None
  = Some (Z.of_nat (Nat.of_uint d)).
Proof.
  intros Hd. unfold Nat.of_uint.
  each_digit d; [congruence|..];
    cbn [NilEmpty.string_of_uint Nat.of_uint_acc];
    erewrite readDigits_step by reflexivity;
    cbn [orElse]; rewrite Nat.tail_mul_spec; digit_value;
    (match goal with
     | |- context [readDigits 10 _ (Some ?x)] =>
         match goal with
         | |- context [Nat.of_uint_acc _ ?n] =>
             replace x with (Z.of_nat n) by lia
         end
     end);
    rewrite readDigits_decimal; reflexivity.
Qed.

Lemma readRadix_decimal (d : Decimal.uint) :
  readRadix (NilEmpty.string_of_uint d) = (10, NilEmpty.string_of_uint d).
Proof. each_digit d; [reflexivity|..]; each_digit d; reflexivity. Qed.

Lemma readSign_decimal (d : Decimal.uint) :
  readSign (NilEmpty.string_of_uint d) = (1, NilEmpty.string_of_uint d).
Proof. destruct d; reflexivity. Qed.

Lemma trimStart_decimal (d : Decimal.uint) :
  trimStart (NilEmpty.string_of_uint d) = NilEmpty.string_of_uint d.
Proof.
  destruct d; [reflexivity|..]; cbn [NilEmpty.string_of_uint];
    destruct (NilEmpty.string_of_uint d) as [|c2 [|c3 r3]]; reflexivity.
Qed.

Lemma trimStart_minus (r : string) : trimStart (String "-" r) = String "-" r.
Proof. destruct r as [|c2 [|c3 r3]]; reflexivity. Qed.

(** Below 2^53 every integer is a double. *)
Lemma roundToDouble_small (m : Z) : m < 2 ^ 53 -> roundToDouble m = m.
Proof.
  intros H. unfold roundToDouble. apply Z.ltb_lt in H. rewrite H. reflexivity.
Qed.

Lemma parseIntStr_decimal (d : Decimal.uint) :
  d <> Decimal.Nil -> Z.of_nat (Nat.of_uint d) < 2 ^ 53 ->
  parseIntStr (NilEmpty.string_of_uint d) = Some (Z.of_nat (Nat.of_uint d)).
Proof.
  intros Hd Hsmall. unfold parseIntStr.
  rewrite trimStart_decimal, readSign_decimal. cbv beta iota.
  rewrite readRadix_decimal. cbv beta iota.
  rewrite (readDigits_decimal_start d Hd), (roundToDouble_small _ Hsmall).
  f_equal; lia.
Qed.

Lemma parseIntStr_minus_decimal (d : Decimal.uint) :
  d <> Decimal.Nil -> Z.of_nat (Nat.of_uint d) < 2 ^ 53 ->
  parseIntStr (String "-" (NilEmpty.string_of_uint d))
  = Some (- Z.of_nat (Nat.of_uint d)).
Proof.
  intros Hd Hsmall. unfold parseIntStr. rewrite trimStart_minus.
  change (readSign (String "-" (NilEmpty.string_of_uint d)))
    with (-1, NilEmpty.string_of_uint d).
  cbv beta iota. rewrite readRadix_decimal. cbv beta iota.
  rewrite (readDigits_decimal_start d Hd), (roundToDouble_small _ Hsmall).
  f_equal; lia.
Qed.

(** The decimal writing of a number, read back by [parseInt]. *)
Lemma parseInt_decimal (n : nat) :
  Z.of_nat n < 2 ^ 53 ->
  numOr0 (parseInt (Some (decimal n))) = Z.of_nat n.
Proof.
  intros Hn. unfold parseInt, toString, decimal. cbn [orElse].
  rewrite parseIntStr_decimal;
    [| apply to_uint_nonnil | rewrite Unsigned.of_to; exact Hn].
  unfold numOr0. cbn [orElse]. rewrite Unsigned.of_to. reflexivity.
Qed.

Lemma decimal_no_space (d : Decimal.uint) :
  hasChar " " (NilEmpty.string_of_uint d) = false.
Proof. induction d; simpl; auto. Qed.

Lemma firstWord_before_space (a rest : string) :
  hasChar " " a = false -> firstWord (a ++ String " " rest) = a.
Proof.
  induction a as [|c a IH]; simpl; [reflexivity|].
  intros H. apply orb_false_iff in H as [Hc Ha].
  rewrite Hc, (IH Ha). reflexivity.
Qed.

Lemma trimEnd_cons (c : ascii) (r : string) :
  onlyWhiteSpace (String c r) = false ->
  trimEnd (String c r) = String c (trimEnd r).
Proof. intros H. cbn [trimEnd]. rewrite H. reflexivity. Qed.

Lemma onlyWhiteSpace_decimal (d : Decimal.uint) :
  d <> Decimal.Nil -> onlyWhiteSpace (NilEmpty.string_of_uint d) = false.
Proof.
  intros Hd. unfold onlyWhiteSpace. rewrite trimStart_decimal.
  destruct d; [congruence|..]; reflexivity.
Qed.

Lemma trimEnd_decimal (d : Decimal.uint) :
  trimEnd (NilEmpty.string_of_uint d) = NilEmpty.string_of_uint d.
Proof.
  induction d; [reflexivity|..];
    (match goal with
     | |- trimEnd (NilEmpty.string_of_uint ?x) = _ =>
         pose proof (onlyWhiteSpace_decimal x ltac:(discriminate)) as Hw
     end);
    cbn [NilEmpty.string_of_uint] in *;
    rewrite (trimEnd_cons _ _ Hw), IHd; reflexivity.
Qed.

Lemma replace_decimal (v : Revision) (d : Decimal.uint) :
  replace (NilEmpty.string_of_uint d) (glyph v) "" = NilEmpty.string_of_uint d.
Proof.
  induction d; destruct v; simpl; try reflexivity; simpl in IHd; rewrite ?IHd;
    try reflexivity.
Qed.

Lemma replace_glyph (v : Revision) (s : string) :
  replace (glyph v ++ s) (glyph v) "" = s.
Proof. destruct v; simpl; destruct s; reflexivity. Qed.

Lemma trim_space_decimal (d : Decimal.uint) :
  trim (NilEmpty.string_of_uint d) = NilEmpty.string_of_uint d
  /\ trim (String " " (NilEmpty.string_of_uint d)) = NilEmpty.string_of_uint d.
Proof.
  unfold trim. cbn [trimStart]. change (isWhiteSpace " ") with true. cbn iota.
  rewrite trimStart_decimal, trimEnd_decimal. auto.
Qed.

(** X16.  An experience written as a decimal number below 2^53, a space and
    any text is read as that number; fees written as the currency sign of
    the revision, a space and a decimal number below 2^53, or as the number
    alone, are read as that number. *)
Theorem transform_reads_numbers (v : Revision) (doctor : Payload.t)
  (sps : list Speciality.t) (years amount : nat) (unit : string)
  (Hyears : Z.of_nat years < 2 ^ 53) (Hamount : Z.of_nat amount < 2 ^ 53) :
  let item f :=
    withFeesField (Some f)
      (withExperienceField (Some (decimal years ++ " " ++ unit))
         (withSpecialities (Some sps) doctor)) in
  (exists r, transform v (item (glyph v ++ " " ++ decimal amount)) = Ok r
             /\ experience r = Z.of_nat years /\ fee r = Z.of_nat amount)
  /\ (exists r, transform v (item (decimal amount)) = Ok r
              /\ experience r = Z.of_nat years /\ fee r = Z.of_nat amount).
Proof.
  intros item.
  assert (Hexp : forall f r, transform v (item f) = Ok r ->
                             experience r = Z.of_nat years).
  { intros f r Hr. unfold item, transform, firstSpecialityName in Hr.
    cbn [withFeesField withExperienceField withSpecialities
         Payload.specialities Payload.experience bind chain] in Hr.
    injection Hr as <-. cbn [experience].
    pose proof (split_firstWord (decimal years ++ String " " unit)) as Hs.
    cbn [nth_error] in Hs. rewrite Hs. unfold decimal at 1.
    rewrite firstWord_before_space by apply decimal_no_space.
    apply parseInt_decimal. exact Hyears. }
  split; eexists; (split; [reflexivity|]); (split; [eapply Hexp; reflexivity|]).
  - unfold item. cbn [fee withFeesField Payload.fees chain].
    rewrite replace_glyph.
    change (" " ++ decimal amount) with (String " " (decimal amount)).
    unfold decimal at 1. rewrite (proj2 (trim_space_decimal _)).
    apply parseInt_decimal. exact Hamount.
  - unfold item. cbn [fee withFeesField Payload.fees chain].
    unfold decimal at 1. rewrite replace_decimal, (proj1 (trim_space_decimal _)).
    apply parseInt_decimal. exact Hamount.
Qed.

Lemma transform_reads_numbers_witness :
  (exists r,
      transform Rich
        (withFeesField (Some (glyph Rich ++ " " ++ decimal 500))
           (withExperienceField (Some (decimal 13 ++ " " ++ "Years"))
              (withSpecialities (Some []) wellFormedItem))) = Ok r
      /\ experience r = Z.of_nat 13 /\ fee r = Z.of_nat 500)
  /\ (exists r,
         transform Rich
           (withFeesField (Some (decimal 500))
              (withExperienceField (Some (decimal 13 ++ " " ++ "Years"))
                 (withSpecialities (Some []) wellFormedItem))) = Ok r
         /\ experience r = Z.of_nat 13 /\ fee r = Z.of_nat 500).
Proof.
  apply (transform_reads_numbers Rich wellFormedItem [] 13 500 "Years");
    reflexivity.
Defined.

Lemma replace_absent_head (c : ascii) (r pat : string) :
  dropPrefix (String c r) pat = None ->
  replace (String c r) pat "" = String c (replace r pat "").
Proof. intros H. simpl. simpl in H. rewrite H. reflexivity. Qed.

(** The rupee sign, a space and a number lose nothing in [trim]. *)
Lemma trim_rupee_decimal (n : nat) :
  trim (glyph Rich ++ " " ++ decimal n) = glyph Rich ++ " " ++ decimal n.
Proof.
  unfold trim. cbn [glyph append].
  assert (Hstart : forall r,
             trimStart (String "226" (String "130" (String "185" r)))
             = String "226" (String "130" (String "185" r)))
    by reflexivity.
  rewrite Hstart.
  rewrite !trimEnd_cons.
  - unfold decimal. rewrite trimEnd_decimal. reflexivity.
  - unfold onlyWhiteSpace, decimal. cbn [trimStart].
    change (isWhiteSpace " ") with true. cbn iota.
    apply onlyWhiteSpace_decimal, to_uint_nonnil.
  - unfold onlyWhiteSpace. destruct (decimal n); reflexivity.
  - reflexivity.
  - reflexivity.
Qed.

(** X17.  The earlier revision strips a byte sequence that is not the rupee
    sign: fees written with the rupee sign before the number are read as
    0 there. *)
Theorem basic_revision_reads_rupee_fee_as_zero (doctor : Payload.t)
  (sps : list Speciality.t) (n : nat) :
  exists r,
    transform Basic
      (withFeesField (Some (glyph Rich ++ " " ++ decimal n))
         (withSpecialities (Some sps) doctor)) = Ok r
    /\ fee r = 0.
Proof.
  eexists. split; [reflexivity|].
  cbn [fee withFeesField Payload.fees chain].
  assert (Hrep : replace (glyph Rich ++ " " ++ decimal n) (glyph Basic) ""
                 = glyph Rich ++ " " ++ decimal n).
  { cbn [glyph append].
    rewrite !replace_absent_head by reflexivity.
    unfold decimal. rewrite (replace_decimal Basic). reflexivity. }
  rewrite Hrep, trim_rupee_decimal. reflexivity.
Qed.

Lemma transform_copies (v : Revision) (d : Payload.t) (r : DoctorRecord) :
  transform v d = Ok r -> id r = Payload.id d /\ name r = Payload.name d.
Proof.
  unfold transform, firstSpecialityName.
  destruct (Payload.specialities d); simpl; [|discriminate].
  intros H. injection H as <-. auto.
Qed.

Lemma mapM_transform_Ok (v : Revision) (data : list Payload.t) :
  Forall (fun d => Payload.specialities d <> None) data ->
  exists rs, mapM (transform v) data = Ok rs
             /\ map id rs = map Payload.id data
             /\ map name rs = map Payload.name data.
Proof.
  induction 1 as [|d data Hd Hall (rs & Hrs & Hid & Hname)]; simpl.
  - exists []. auto.
  - destruct (transform v d) as [r|e] eqn:Hr.
    + destruct (transform_copies v d r Hr) as [Hi Hn].
      exists (r :: rs). rewrite Hrs. simpl. rewrite Hi, Hn, Hid, Hname. auto.
    + unfold transform, firstSpecialityName in Hr.
      destruct (Payload.specialities d); [discriminate|congruence].
Qed.

(** X18.  When every item of the payload has a specialities field the load
    succeeds: there is one record per item, in the order of the payload,
    with the item's id and name; the derived list is the raw list, the
    loading flag is down, nothing is logged and one request was made. *)
Theorem fetchDoctors_success (v : Revision) (data : list Payload.t)
  (st : State)
  (Hdata : Forall (fun d => Payload.specialities d <> None) data) :
  let st' := fetchDoctors v (JsonArray data) st in
  map id (doctors st') = map Payload.id data
  /\ map name (doctors st') = map Payload.name data
  /\ filteredDoctors st' = doctors st'
  /\ isLoading st' = false
  /\ console st' = console st
  /\ requests st' = S (requests st).
Proof.
  destruct (mapM_transform_Ok v data Hdata) as (rs & Hrs & Hid & Hname).
  intros st'. subst st'. unfold fetchDoctors, fetchSettle. simpl.
  rewrite Hrs. simpl. repeat split; assumption.
Qed.

Lemma fetchDoctors_success_witness :
  map id (doctors (fetchDoctors Rich
                     (JsonArray [wellFormedItem; malformedItem]) initialState))
  = ["8"; "7"]
  /\ map name (doctors (fetchDoctors Rich
                          (JsonArray [wellFormedItem; malformedItem])
                          initialState))
     = ["Ravi Kumar"; "Anna Smith"]
  /\ filteredDoctors (fetchDoctors Rich
                        (JsonArray [wellFormedItem; malformedItem])
                        initialState)
     = doctors (fetchDoctors Rich
                  (JsonArray [wellFormedItem; malformedItem]) initialState)
  /\ isLoading (fetchDoctors Rich
                  (JsonArray [wellFormedItem; malformedItem]) initialState)
     = false
  /\ console (fetchDoctors Rich
                (JsonArray [wellFormedItem; malformedItem]) initialState)
     = []
  /\ requests (fetchDoctors Rich
                 (JsonArray [wellFormedItem; malformedItem]) initialState)
     = 1%nat.
Proof.
  apply (fetchDoctors_success Rich [wellFormedItem; malformedItem] initialState).
  repeat constructor; discriminate.
Defined.

(** X19.  While the request is pending the page shows the spinner; once it
    has settled the page shows the cards when the load gave at least one
    record, and the "no doctors" message otherwise, failure included. *)
Theorem render_follows_load (v : Revision) (r : Response) (st : State) :
  render (fetchStart st) = Spinner
  /\ render (fetchDoctors v r st)
     = match transformedData v r with
       | Ok (x :: l) => Cards (x :: l)
       | _ => NoDoctorsFound
       end.
Proof.
  split; [reflexivity|].
  unfold fetchDoctors, fetchSettle.
  destruct (transformedData v r) as [[|x l]|e]; reflexivity.
Qed.

(** X20.  A record made from an item that has a specialities field never
    has an empty image address, whatever the photo field holds, and carries
    the item's id and name. *)
Theorem transform_image_never_empty (v : Revision) (doctor : Payload.t)
  (sps : list Speciality.t) :
  exists r, transform v (withSpecialities (Some sps) doctor) = Ok r
            /\ image r <> ""
            /\ id r = Payload.id doctor
            /\ name r = Payload.name doctor.
Proof.
  eexists. split; [reflexivity|]. simpl.
  split; [|auto].
  destruct (Payload.photo doctor) as [[|c s]|]; discriminate.
Qed.

(** X21.  An experience text that starts with a space is read as 0, whatever
    follows, since its first word is empty; an experience written as a
    minus sign and a decimal number below 2^53 is read as the negative
    number. *)
Theorem experience_edge_cases (v : Revision) (doctor : Payload.t)
  (sps : list Speciality.t) (years : nat) (text unit : string)
  (Hyears : Z.of_nat years < 2 ^ 53) :
  let item e :=
    withExperienceField (Some e) (withSpecialities (Some sps) doctor) in
  (exists r, transform v (item (" " ++ text)) = Ok r /\ experience r = 0)
  /\ (exists r, transform v (item ("-" ++ decimal years ++ " " ++ unit)) = Ok r
              /\ experience r = - Z.of_nat years).
Proof.
  intros item. split; eexists; (split; [reflexivity|]).
  - reflexivity.
  - unfold item.
    cbn [experience withExperienceField Payload.experience chain].
    rewrite split_firstWord.
    change ("-" ++ decimal years ++ " " ++ unit)
      with (String "-" (decimal years ++ String " " unit)).
    cbn [firstWord]. change (Ascii.eqb "-" " ") with false. cbn iota.
    unfold decimal.
    rewrite firstWord_before_space by apply decimal_no_space.
    unfold parseInt, toString. cbn [orElse].
    rewrite parseIntStr_minus_decimal;
      [| apply to_uint_nonnil | rewrite Unsigned.of_to; exact Hyears].
    unfold numOr0. cbn [orElse]. rewrite Unsigned.of_to. reflexivity.
Qed.

Lemma experience_edge_cases_witness :
  (exists r,
      transform Rich
        (withExperienceField (Some (" " ++ "12 years"))
           (withSpecialities (Some []) wellFormedItem)) = Ok r
      /\ experience r = 0)
  /\ (exists r,
         transform Rich
           (withExperienceField (Some ("-" ++ decimal 3 ++ " " ++ "years"))
              (withSpecialities (Some []) wellFormedItem)) = Ok r
         /\ experience r = - Z.of_nat 3).
Proof.
  apply (experience_edge_cases Rich wellFormedItem [] 3 "12 years" "years").
  reflexivity.
Defined.
